(** * py2gpu: the blockwise dispatch engine of [api.py]

    A shallow embedding of [api.py] (Python 2, numpy, pycuda): the type
    mapper [get_arg_type], the registration decorator [blockwise], the device
    array descriptor [GPUArray] and the dispatcher [_gpu_func] built by
    [make_gpu_func].

    Conventions of the embedding.
    - Python integers are [Z]; Python's [%] and [/] on integers are floor
      operations, which is what [Z.modulo] and [Z.div] compute for a non-zero
      divisor (a zero divisor raises [ZeroDivisionError] in Python and is
      written out here).
    - [numpy.array] of a tuple of Python ints is an int64 array on the LP64
      hosts the code targets when every entry fits a signed 64-bit integer,
      and its arithmetic wraps around ([wrap64]); with an entry outside the
      64 bits it is an object array of Python ints, whose arithmetic is
      exact. An entry from 2^63 up to 2^64 - 1 makes a uint64 or float64
      array and the quotient by its product a float, which the embedding,
      whose block counts are integers, does not represent: it computes such
      a block shape as it does an object array. The theorems that state a
      block count meet such a block shape only with an empty array (an axis
      of 2^63 or more divides no other axis length), or exclude it by a
      bound on the product.
    - A raised exception is a value of [exn]; code that can raise returns a
      [result]. Code that talks to the CUDA driver threads a [device] state,
      which records every driver call; an exception leaves the driver calls
      made so far in place.
    - A dict is a [gmap]; the items of a dict that the code iterates over are
      a list in iteration order. *)

From Stdlib Require Import ZArith Lia List Bool.
From stdpp Require Import gmap strings list fin_maps.

Open Scope Z_scope.

(** ** Exceptions *)

(** The [assert] statements of [api.py], one constructor per statement. *)
Inductive assertion : Type :=
  | VariableSpecifiedMultipleTimes (name : string)   (* _simplify, line 17 *)
  | NonOverlappingCenterAsOrigin                     (* blockwise, line 28 *)
  | AlreadyRegistered (fname : string)               (* _blockwise, line 37 *)
  | CompileBeforeExecuting                           (* _call_blockwise, line 49 *)
  | BlockDimensionsUneven (argname : string)         (* _gpu_func, line 162 *)
  | NotIntegerMultiple (argname : string)            (* _gpu_func, line 170 *)
  | BlockCountMismatch (argname : string).           (* _gpu_func, line 178 *)

Inductive exn : Type :=
  | AssertionError (a : assertion)
  | NameError (name : string)
  | ZeroDivisionError
  | BroadcastError (n m : nat)   (* numpy's ValueError: operands could not be
                                    broadcast together with shapes (n,) (m,) *)
  | IOError                      (* inspect.getsource: no source to be had *)
  | SyntaxError.                 (* ast.parse: the source does not parse *)

Inductive result (A : Type) : Type :=
  | Ok (a : A)
  | Raise (e : exn).
Arguments Ok {A} a.
Arguments Raise {A} e.

Definition rbind {A B} (r : result A) (k : A -> result B) : result B :=
  match r with
  | Ok a => k a
  | Raise e => Raise e
  end.

Definition is_Ok {A} (r : result A) : Prop :=
  match r with Ok _ => True | Raise _ => False end.

Definition py_assert (b : bool) (a : assertion) : result unit :=
  if b then Ok tt else Raise (AssertionError a).

Declare Scope result_scope.
Delimit Scope result_scope with result.
Notation "x <- r ;; k" := (rbind r (fun x => k))
  (at level 100, r at next level, right associativity) : result_scope.
Notation "r ;;; k" := (rbind r (fun _ => k))
  (at level 100, right associativity) : result_scope.

(** ** numpy: arithmetic on one-dimensional integer arrays *)

Module Numpy.

Definition wrap64 (z : Z) : Z := (z + 2 ^ 63) mod 2 ^ 64 - 2 ^ 63.

Definition fits_int64 (z : Z) : bool := (- 2 ^ 63 <=? z) && (z <? 2 ^ 63).

(** Whether [numpy.array(t)] is an int64 array, for a tuple [t] of Python
    ints. *)
Definition is_int64_array (t : list Z) : bool := forallb fits_int64 t.

(** [numpy.array(t).prod()]: on an int64 array the running product, wrapped
    at every multiplication; on an object array the exact product of the
    Python ints. *)
Definition prod (t : list Z) : Z :=
  if is_int64_array t then fold_left (fun acc x => wrap64 (acc * x)) t 1
  else fold_left Z.mul t 1.

(** [a - k] for an integer array [a] and a Python int [k]. *)
Definition sub_scalar (a : list Z) (k : Z) : list Z :=
  map (fun x => wrap64 (x - k)) a.

Fixpoint zip_sub (a b : list Z) : list Z :=
  match a, b with
  | x :: a', y :: b' => wrap64 (x - y) :: zip_sub a' b'
  | _, _ => []
  end.

(** [a - b] for two one-dimensional arrays: elementwise when the lengths
    agree, a length-1 operand is stretched, anything else does not
    broadcast. *)
Definition sub (a b : list Z) : result (list Z) :=
  if (length a =? length b)%nat then Ok (zip_sub a b)
  else match a, b with
       | [x], _ => Ok (map (fun y => wrap64 (x - y)) b)
       | _, [y] => Ok (map (fun x => wrap64 (x - y)) a)
       | _, _ => Raise (BroadcastError (length a) (length b))
       end.

(** [n / d] for a Python int [n] and an int64 scalar [d]: an int64 floor
    division; numpy answers 0 (with a warning) when [d] is 0. *)
Definition floordiv (n d : Z) : Z :=
  if d =? 0 then 0 else wrap64 (n / d).

(** [n / numpy.array(t).prod()] for a Python int [n]: the int64 product of
    an int64 array divides as above; the product of an object array is a
    Python int, and the division is Python's floor division, which raises
    on zero. *)
Definition floordiv_prod (n : Z) (t : list Z) : result Z :=
  if is_int64_array t then Ok (floordiv n (prod t))
  else if prod t =? 0 then Raise ZeroDivisionError
  else Ok (n / prod t).

End Numpy.

(** A host array ([numpy.ndarray]): its shape and the byte size of one
    element. [data.ndim] and [data.size] derive from the shape. *)
Record ndarray : Type := mk_ndarray {
  nd_shape : list Z;
  nd_itemsize : Z
}.

Definition product (l : list Z) : Z := fold_right Z.mul 1 l.

Definition nd_ndim (data : ndarray) : Z := Z.of_nat (length (nd_shape data)).
Definition nd_size (data : ndarray) : Z := product (nd_shape data).

(** What numpy guarantees of the shape of an array that exists: every axis
    and the element count are non-negative values of the signed
    pointer-sized integer. *)
Definition valid_shape (S : list Z) : Prop :=
  Forall (fun d => 0 <= d < 2 ^ 63) S /\ product S < 2 ^ 63.

(** ** Type mapper *)

(** The classes [get_arg_type] can be handed: the array tags of [api.py], the
    numpy scalar types it names, and Python's builtins. *)
Inductive pyclass : Type :=
  | ArrayType | IntArray | FloatArray
  | np_int8 | np_uint8 | np_int16 | np_uint16
  | np_int32 | np_uint32 | np_int64 | np_uint64
  | np_float32 | np_float64
  | py_bool | py_int | py_long | py_float | py_str | py_object.

Definition pyclass_eqb (a b : pyclass) : bool :=
  match a, b with
  | ArrayType, ArrayType | IntArray, IntArray | FloatArray, FloatArray
  | np_int8, np_int8 | np_uint8, np_uint8 | np_int16, np_int16
  | np_uint16, np_uint16 | np_int32, np_int32 | np_uint32, np_uint32
  | np_int64, np_int64 | np_uint64, np_uint64 | np_float32, np_float32
  | np_float64, np_float64 | py_bool, py_bool | py_int, py_int
  | py_long, py_long | py_float, py_float | py_str, py_str
  | py_object, py_object => true
  | _, _ => false
  end.

(** [cls.__name__] *)
Definition class_name (c : pyclass) : string :=
  match c with
  | ArrayType => "ArrayType" | IntArray => "IntArray"
  | FloatArray => "FloatArray"
  | np_int8 => "int8" | np_uint8 => "uint8"
  | np_int16 => "int16" | np_uint16 => "uint16"
  | np_int32 => "int32" | np_uint32 => "uint32"
  | np_int64 => "int64" | np_uint64 => "uint64"
  | np_float32 => "float32" | np_float64 => "float64"
  | py_bool => "bool" | py_int => "int" | py_long => "long"
  | py_float => "float" | py_str => "str" | py_object => "object"
  end.

(** The proper ancestors of a class among the classes above. [IntArray] and
    [FloatArray] derive from [ArrayType] (api.py, lines 100-107). The rest is
    the class hierarchy of Python 2 and numpy: [bool] derives from [int];
    [numpy.float64] derives from Python's [float]; the numpy type of C long
    ([numpy.int64] on LP64) derives from Python 2's [int]. *)
Definition ancestors (c : pyclass) : list pyclass :=
  match c with
  | IntArray | FloatArray => [ArrayType; py_object]
  | np_float64 => [py_float; py_object]
  | np_int64 => [py_int; py_object]
  | py_bool => [py_int; py_object]
  | py_object => []
  | _ => [py_object]
  end.

Definition issubclass (c : pyclass) (classinfo : list pyclass) : bool :=
  existsb (fun k => existsb (pyclass_eqb k) (c :: ancestors c)) classinfo.

(** [get_arg_type] (api.py, lines 109-132). The last line formats the message
    with [tp], a name bound nowhere, so evaluating it raises [NameError]. *)
Definition get_arg_type (arg : pyclass) : result (string * string) :=
  if issubclass arg [ArrayType] then Ok ("P", class_name arg)
  else if issubclass arg [np_int8] then Ok ("b", "char")
  else if issubclass arg [np_uint8] then Ok ("B", "unsigned char")
  else if issubclass arg [np_int16] then Ok ("h", "short")
  else if issubclass arg [np_uint16] then Ok ("H", "unsigned short")
  else if issubclass arg [py_int; np_int32] then Ok ("i", "int")
  else if issubclass arg [np_uint32] then Ok ("I", "unsigned int")
  else if issubclass arg [py_long; np_int64] then Ok ("l", "long")
  else if issubclass arg [np_uint64] then Ok ("L", "unsigned long")
  else if issubclass arg [py_float; np_float32] then Ok ("f", "float")
  else if issubclass arg [np_float64] then Ok ("d", "double")
  else Raise (NameError "tp").

(** ** The CUDA driver, as far as [api.py] uses it *)

(** One constructor per driver entry point the code calls. The pointer a call
    returns is part of the record. *)
Inductive driver_call : Type :=
  | MemAlloc (bytes : Z) (ptr : Z)
  | ToDevice (data : ndarray) (ptr : Z)
  | MemcpyHtoD (dest : Z) (src : list Z)
  | SetBlockShape (count : Z)          (* block of [splay(count)] *)
  | PreparedCall (kernel_args : list Z) (* grid of [splay(count)] *)
  | FromDeviceLike (ptr : Z) (data : ndarray).

(** The device: a bump allocator and the driver calls made so far, oldest
    first. *)
Record device : Type := mk_device {
  next_free : Z;
  calls : list driver_call
}.

Definition dev (A : Type) : Type := device -> result A * device.

Definition dret {A} (a : A) : dev A := fun d => (Ok a, d).

Definition dbind {A B} (m : dev A) (k : A -> dev B) : dev B :=
  fun d => match m d with
           | (Ok a, d') => k a d'
           | (Raise e, d') => (Raise e, d')
           end.

Definition lift {A} (r : result A) : dev A := fun d => (r, d).

Declare Scope dev_scope.
Delimit Scope dev_scope with dev.
Notation "x <- m ;; k" := (dbind m (fun x => k))
  (at level 100, m at next level, right associativity) : dev_scope.
Notation "m ;;; k" := (dbind m (fun _ => k))
  (at level 100, right associativity) : dev_scope.

Module driver.

Definition mem_alloc (bytes : Z) : dev Z := fun d =>
  let ptr := next_free d in
  (Ok ptr, {| next_free := ptr + bytes;
              calls := calls d ++ [MemAlloc bytes ptr] |}).

Definition to_device (data : ndarray) : dev Z := fun d =>
  let ptr := next_free d in
  (Ok ptr, {| next_free := ptr + nd_size data * nd_itemsize data;
              calls := calls d ++ [ToDevice data ptr] |}).

Definition memcpy_htod (dest : Z) (src : list Z) : dev unit := fun d =>
  (Ok tt, {| next_free := next_free d;
             calls := calls d ++ [MemcpyHtoD dest src] |}).

Definition from_device_like (ptr : Z) (data : ndarray) : dev unit := fun d =>
  (Ok tt, {| next_free := next_free d;
             calls := calls d ++ [FromDeviceLike ptr data] |}).

(** [func.set_block_shape( *block)] and [func.prepared_call(grid, ...)] with
    [grid, block = splay(count)]. *)
Definition launch (count : Z) (kernel_args : list Z) : dev unit := fun d =>
  (Ok tt, {| next_free := next_free d;
             calls := calls d ++ [SetBlockShape count;
                                  PreparedCall kernel_args] |}).

End driver.

(** ** Device array descriptor *)

(** [numpy.intp(0).nbytes] on LP64 and [numpy.int32(0).nbytes]. *)
Definition intpsize : Z := 8.
Definition int32size : Z := 4.

(** [numpy.array(struct, dtype=numpy.int32)] keeps the low 32 bits of each
    entry. *)
Definition wrap32 (z : Z) : Z := (z + 2 ^ 31) mod 2 ^ 32 - 2 ^ 31.

(** [n * t] for a tuple [t]: empty when [n] is not positive. *)
Definition tuple_mul {A} (n : Z) (t : list A) : list A :=
  concat (repeat t (Z.to_nat n)).

Module GPUArray.

Record t : Type := mk {
  data : ndarray;
  pointer : Z;
  device_data : Z
}.

(** The class attribute [size] (api.py, line 78). *)
Definition size : Z := intpsize + (4 + 4 + 1 + 1) * int32size.

(** [__init__] (api.py, lines 79-95). *)
Definition __init__ (data : ndarray) : dev t :=
  (pointer <- driver.mem_alloc size ;;
   device_data <- driver.to_device data ;;
   driver.memcpy_htod pointer [device_data] ;;;
   let struct := nd_shape data in
   let struct := struct ++ tuple_mul (4 - nd_ndim data) [0] in
   let struct := struct ++ tuple_mul 4 [0] ++ [nd_ndim data; nd_size data] in
   let struct := map wrap32 struct in
   driver.memcpy_htod (pointer + intpsize) struct ;;;
   dret (mk data pointer device_data))%dev.

Definition copy_to_host (self : t) : dev unit :=
  driver.from_device_like (device_data self) (data self).

End GPUArray.

(** The struct the kernels read ([_typedef_base], api.py, lines 57-66): the
    byte sizes of its members in order, and its [__align__]. *)
Definition ArrayStruct_members : list Z :=
  [intpsize; 4 * int32size; 4 * int32size; int32size; int32size].
Definition ArrayStruct_align : Z := 64.

Definition round_up (align n : Z) : Z := (n + align - 1) / align * align.

(** ** Registration: [blockwise] *)

(** A key of the two mappings handed to [blockwise]: one variable name, or a
    list, tuple or set of names sharing the value. *)
Inductive names_key : Type :=
  | Name (name : string)
  | Names (names : list string).

Definition key_names (k : names_key) : list string :=
  match k with
  | Name name => [name]
  | Names names => names
  end.

(** The inner loop of [_simplify] (api.py, lines 16-18). *)
Fixpoint simplify_names {V} (names : list string) (value : V)
    (simple : gmap string V) : result (gmap string V) :=
  match names with
  | [] => Ok simple
  | name :: names' =>
      (py_assert (bool_decide (simple !! name = None))
                 (VariableSpecifiedMultipleTimes name) ;;;
       simplify_names names' value (<[name := value]> simple))%result
  end.

(** The outer loop (lines 13-18), over [mapping.items()]. *)
Fixpoint simplify_items {V} (items : list (names_key * V))
    (simple : gmap string V) : result (gmap string V) :=
  match items with
  | [] => Ok simple
  | (names, value) :: items' =>
      (simple' <- simplify_names (key_names names) value simple ;;
       simplify_items items' simple')%result
  end.

Definition _simplify {V} (mapping : list (names_key * V))
    : result (gmap string V) :=
  simplify_items mapping ∅.

(** The decorated Python function: its [__name__], the argument names
    [inspect.getargspec] reports, and what
    [_rename_func(ast.parse(inspect.getsource(func)), fname)] (line 45) comes
    to: the tree, whose content is the code generator's, or the exception
    raised on the way ([IOError] when [inspect] finds no source,
    [SyntaxError] when the source does not parse on its own, as with a
    function defined inside another). *)
Record pyfunc : Type := mk_pyfunc {
  func_name : string;
  func_args : list string;
  func_tree : result unit
}.

(** An entry of [_gpu_funcs] (lines 38-47). The entries [functype], [tree]
    and [prototypes] belong to the code generator and are not repeated in
    the record (the tree that was built is the [func_tree] of [func]);
    [has_gpufunc] says whether the key [gpufunc] is present. *)
Record info : Type := mk_info {
  func : pyfunc;
  blockshapes : gmap string (list Z);
  overlapping : bool;
  center_as_origin : bool;
  types : gmap string (string * string);
  has_gpufunc : bool
}.

(** The loop of lines 30-31 over [types.items()]. *)
Fixpoint convert_types (items : list (string * pyclass))
    (types : gmap string (string * string))
    : result (gmap string (string * string)) :=
  match items with
  | [] => Ok types
  | (varname, vartype) :: items' =>
      (t <- get_arg_type vartype ;;
       convert_types items' (<[varname := t]> types))%result
  end.

(** What the closure [_blockwise] captures. *)
Record decorator : Type := mk_decorator {
  dec_blockshapes : gmap string (list Z);
  dec_types : gmap string (string * string);
  dec_overlapping : bool;
  dec_center_as_origin : bool;
  dec_name : option string
}.

(** [blockwise] up to the [return _blockwise] (lines 25-32, 55). *)
Definition blockwise (blockshapes : list (names_key * list Z))
    (types : list (names_key * pyclass))
    (overlapping center_as_origin : bool) (name : option string)
    : result decorator :=
  (blockshapes <- _simplify blockshapes ;;
   types <- _simplify types ;;
   py_assert (overlapping || negb center_as_origin)
             NonOverlappingCenterAsOrigin ;;;
   types <- convert_types (map_to_list types) ∅ ;;
   Ok (mk_decorator blockshapes types overlapping center_as_origin name))%result.

(** [fname = name; if not fname: fname = func.__name__] *)
Definition registered_name (name : option string) (f : pyfunc) : string :=
  match name with
  | Some n => if String.eqb n "" then func_name f else n
  | None => func_name f
  end.

(** [_blockwise] (lines 32-47): applying the decorator adds the entry to the
    process-wide [_gpu_funcs], once the name is found free and the tree of
    the function has been built. *)
Definition _blockwise (dec : decorator) (f : pyfunc)
    (_gpu_funcs : gmap string info) : result (gmap string info) :=
  let fname := registered_name (dec_name dec) f in
  (py_assert (bool_decide (_gpu_funcs !! fname = None))
             (AlreadyRegistered fname) ;;;
   func_tree f ;;;
   Ok (<[fname := mk_info f (dec_blockshapes dec) (dec_overlapping dec)
                          (dec_center_as_origin dec) (dec_types dec) false]>
         _gpu_funcs))%result.

(** Declaring a block function: [@blockwise(...)] on top of [def f]. *)
Definition declare (blockshapes : list (names_key * list Z))
    (types : list (names_key * pyclass))
    (overlapping center_as_origin : bool) (name : option string)
    (f : pyfunc) (_gpu_funcs : gmap string info)
    : result (gmap string info) :=
  (dec <- blockwise blockshapes types overlapping center_as_origin name ;;
   _blockwise dec f _gpu_funcs)%result.

(** ** Dispatch: [_gpu_func] *)

(** A positional argument of a call: a host array, a device array the caller
    built beforehand, or anything else (a number). *)
Inductive pyarg : Type :=
  | NdArray (a : ndarray)
  | DeviceArray (g : GPUArray.t)
  | Scalar (v : Z).

(** [any(dim1 % dim2 for dim1, dim2 in pairs)] *)
Fixpoint any_remainder (pairs : list (Z * Z)) : result bool :=
  match pairs with
  | [] => Ok false
  | (dim1, dim2) :: pairs' =>
      if dim2 =? 0 then Raise ZeroDivisionError
      else if dim1 mod dim2 =? 0 then any_remainder pairs'
      else Ok true
  end.

(** [shape == (1,) * len(shape)] *)
Definition all_ones (shape : list Z) : bool :=
  bool_decide (shape = tuple_mul (Z.of_nat (length shape)) [1]).

(** Lines 155-176: the block count one argument implies. *)
Definition blockcount_of (overlapping center_as_origin : bool)
    (argname : string) (data : ndarray) (shape : list Z) : result Z :=
  if overlapping && all_ones shape then
    if center_as_origin then
      (py_assert (forallb (fun dim => negb (dim mod 2 =? 0)) shape)
                 (BlockDimensionsUneven argname) ;;;
       Ok (nd_size data))%result
    else
      (diff <- Numpy.sub (nd_shape data) (Numpy.sub_scalar shape 1) ;;
       Ok (Numpy.prod diff))%result
  else
    (uneven <- any_remainder (combine (nd_shape data) shape) ;;
     py_assert (negb uneven) (NotIntegerMultiple argname) ;;;
     Numpy.floordiv_prod (nd_size data) shape)%result.

(** Lines 153-182: the new value of [count] after one device array. *)
Definition update_count (i : info) (argname : string) (g : GPUArray.t)
    (count : Z) : result Z :=
  match blockshapes i !! argname with
  | Some ((_ :: _) as shape) =>
      (blockcount <- blockcount_of (overlapping i) (center_as_origin i)
                                   argname (GPUArray.data g) shape ;;
       (if count =? 0 then Ok tt
        else py_assert (count =? blockcount) (BlockCountMismatch argname)) ;;;
       Ok blockcount)%result
  | _ => Ok count
  end.

(** The locals of [_gpu_func] the loop updates. *)
Record locals : Type := mk_locals {
  kernel_args : list Z;
  arrays : list GPUArray.t;
  count : Z
}.

(** Lines 149-151: a host array is uploaded on the spot. *)
Definition wrap_ndarray (arg : pyarg) (arrays : list GPUArray.t)
    : dev ((GPUArray.t + Z) * list GPUArray.t) :=
  match arg with
  | NdArray a =>
      (g <- GPUArray.__init__ a ;; dret (inl g, arrays ++ [g]))%dev
  | DeviceArray g => dret (inl g, arrays)
  | Scalar v => dret (inr v, arrays)
  end.

(** The body of the loop (lines 149-184). *)
Definition loop_body (i : info) (st : locals) (argname : string)
    (arg : pyarg) : dev locals :=
  (wrapped <- wrap_ndarray arg (arrays st) ;;
   match fst wrapped with
   | inl g =>
       count' <- lift (update_count i argname g (count st)) ;;
       dret (mk_locals (kernel_args st ++ [GPUArray.pointer g])
                       (snd wrapped) count')
   | inr v =>
       dret (mk_locals (kernel_args st ++ [v]) (snd wrapped) (count st))
   end)%dev.

(** [for argname, arg in zip(argnames, args)] *)
Fixpoint for_args (i : info) (zipped : list (string * pyarg)) (st : locals)
    : dev locals :=
  match zipped with
  | [] => dret st
  | (argname, arg) :: rest =>
      (st' <- loop_body i st argname arg ;; for_args i rest st')%dev
  end.

(** Lines 191-193. *)
Fixpoint copy_back (arrays : list GPUArray.t) : dev unit :=
  match arrays with
  | [] => dret tt
  | gpuarray :: rest =>
      (GPUArray.copy_to_host gpuarray ;;; copy_back rest)%dev
  end.

(** [_gpu_func] (lines 143-193). *)
Definition _gpu_func (i : info) (args : list pyarg) : dev unit :=
  let argnames := func_args (func i) in
  (st <- for_args i (combine argnames args) (mk_locals [] [] 0) ;;
   let kernel_args := kernel_args st ++ [count st] in
   driver.launch (count st) kernel_args ;;;
   copy_back (arrays st))%dev.

(** [_call_blockwise] (lines 48-52). *)
Definition _call_blockwise (i : info) (args : list pyarg) : dev unit :=
  (lift (py_assert (has_gpufunc i) CompileBeforeExecuting) ;;;
   _gpu_func i args)%dev.

(** ** The formula of the specification *)

(** The count the specification gives for sliding windows of shape [B] over
    an array of shape [S]: the product over the axes of
    [S[axis] - (B[axis] - 1)]. *)
Definition sliding_window_count (S B : list Z) : Z :=
  product (zip_with (fun s b => s - (b - 1)) S B).

(** ** What a call has sent to the device *)

(** The driver calls that upload, as opposed to launching or downloading. *)
Definition is_upload (c : driver_call) : Prop :=
  match c with
  | MemAlloc _ _ | ToDevice _ _ | MemcpyHtoD _ _ => True
  | _ => False
  end.

(** Lines 149-151 alone, run over a list of arguments: what the loop has sent
    to the device once it has gone through them. *)
Fixpoint upload_all (args : list pyarg) : dev unit :=
  match args with
  | [] => dret tt
  | arg :: rest => (wrap_ndarray arg [] ;;; upload_all rest)%dev
  end.

(** ** A registry entry to run the dispatcher on *)

(** The entry of a function [f(a, b)] whose two arguments have
    non-overlapping blocks of two elements. *)
Definition two_blocks : info :=
  mk_info (mk_pyfunc "f" ["a"; "b"] (Ok tt))
          (<["a" := [2]]> (<["b" := [2]]> ∅)) false false
          (<["a" := ("P", "IntArray")]> (<["b" := ("P", "IntArray")]> ∅))
          true.

(** ** Mappings spread over their names *)

(** The (name, value) pairs of a mapping handed to [blockwise], every group
    of names spread out, in the order [_simplify] meets them. *)
Definition flat_items {V} (mapping : list (names_key * V))
    : list (string * V) :=
  flat_map (fun kv => map (fun name => (name, snd kv)) (key_names (fst kv)))
           mapping.

(** The two loops of [_simplify] run as one loop over the pairs. *)
Fixpoint insert_all {V} (pairs : list (string * V)) (simple : gmap string V)
    : result (gmap string V) :=
  match pairs with
  | [] => Ok simple
  | (name, value) :: pairs' =>
      (py_assert (bool_decide (simple !! name = None))
                 (VariableSpecifiedMultipleTimes name) ;;;
       insert_all pairs' (<[name := value]> simple))%result
  end.

(** ** Compilation: [make_gpu_func] and [compile_gpu_code] *)

(** The outcome of code whose only exception is the [KeyError] of a dict
    subscript. *)
Inductive keyed (A : Type) : Type :=
  | Found (a : A)
  | KeyError (key : string).
Arguments Found {A} a.
Arguments KeyError {A} key.

(** [''.join(types[arg][0] for arg in argnames)] (line 141) *)
Fixpoint join_codes (types : gmap string (string * string))
    (argnames : list string) : keyed string :=
  match argnames with
  | [] => Found ""
  | arg :: argnames' =>
      match types !! arg with
      | None => KeyError arg
      | Some t =>
          match join_codes types argnames' with
          | Found codes => Found (String.append (fst t) codes)
          | KeyError key => KeyError key
          end
      end
  end.

(** The format string [make_gpu_func] hands to [func.prepare] (lines
    139-142). *)
Definition argtypes (i : info) : keyed string :=
  match join_codes (types i) (func_args (func i)) with
  | Found codes => Found (String.append codes "i")
  | KeyError key => KeyError key
  end.

(** [info['gpufunc'] = make_gpu_func(mod, name, info)] *)
Definition set_gpufunc (i : info) : info :=
  mk_info (func i) (blockshapes i) (overlapping i) (center_as_origin i)
          (types i) true.

(** The loop of lines 211-212 over [_gpu_funcs.items()]: an entry gets its
    [gpufunc] once [make_gpu_func] has built its format string; a
    [KeyError] leaves the loop with the entries bound so far. *)
Fixpoint bind_gpufuncs (items : list (string * info))
    (_gpu_funcs : gmap string info) : keyed unit * gmap string info :=
  match items with
  | [] => (Found tt, _gpu_funcs)
  | (name, i) :: items' =>
      match argtypes i with
      | Found _ => bind_gpufuncs items' (<[name := set_gpufunc i]> _gpu_funcs)
      | KeyError key => (KeyError key, _gpu_funcs)
      end
  end.

(** [compile_gpu_code] (lines 203-212), given that the code generator and
    [SourceModule] deliver the module (lines 204-210). *)
Definition compile_gpu_code (_gpu_funcs : gmap string info)
    : keyed unit * gmap string info :=
  bind_gpufuncs (map_to_list _gpu_funcs) _gpu_funcs.

(** ** Reading a call *)

(** The array behind an argument, when it is one. *)
Definition arg_data (arg : pyarg) : option ndarray :=
  match arg with
  | NdArray a => Some a
  | DeviceArray g => Some (GPUArray.data g)
  | Scalar _ => None
  end.

(** The host arrays among the arguments, in order. *)
Definition host_arrays (args : list pyarg) : list ndarray :=
  omap (fun arg => match arg with NdArray a => Some a | _ => None end) args.

(** The driver calls of [copy_to_host] on each array in turn. *)
Definition downloads (arrays : list GPUArray.t) : list driver_call :=
  map (fun g => FromDeviceLike (GPUArray.device_data g) (GPUArray.data g))
      arrays.

(** [b] is the block count of one of the block-shaped arguments among
    [zipped]: an array whose parameter has a non-empty block shape. *)
Definition implies_count (i : info) (zipped : list (string * pyarg)) (b : Z)
    : Prop :=
  exists argname arg data shape,
    (argname, arg) ∈ zipped
    /\ arg_data arg = Some data
    /\ blockshapes i !! argname = Some shape
    /\ shape <> []
    /\ blockcount_of (overlapping i) (center_as_origin i) argname data shape
       = Ok b.

(** * Properties *)

(** ** Arithmetic of shapes *)

Lemma wrap64_small z : - 2 ^ 63 <= z < 2 ^ 63 -> Numpy.wrap64 z = z.
Proof.
  intros Hz. unfold Numpy.wrap64.
  rewrite Z.mod_small by lia. lia.
Qed.

Lemma wrap64_mul_l a b : Numpy.wrap64 (Numpy.wrap64 a * b) = Numpy.wrap64 (a * b).
Proof.
  unfold Numpy.wrap64. f_equal.
  replace ((a + 2 ^ 63) mod 2 ^ 64 - 2 ^ 63) with
    ((a + 2 ^ 63) mod 2 ^ 64 + (-1) * 2 ^ 63) by lia.
  rewrite Z.mul_add_distr_r.
  rewrite <- Z.add_assoc.
  rewrite <- Zplus_mod_idemp_l.
  rewrite Zmult_mod_idemp_l.
  rewrite Zplus_mod_idemp_l.
  f_equal. lia.
Qed.

Lemma prod_fold l : forall acc,
  fold_left (fun acc x => Numpy.wrap64 (acc * x)) l (Numpy.wrap64 acc)
  = Numpy.wrap64 (acc * product l).
Proof.
  induction l as [|x l IH]; intros acc; simpl.
  - f_equal. lia.
  - rewrite wrap64_mul_l, IH. f_equal. lia.
Qed.

Lemma prod_wrap l :
  Numpy.is_int64_array l = true -> Numpy.prod l = Numpy.wrap64 (product l).
Proof.
  intros Hint. unfold Numpy.prod. rewrite Hint.
  change 1 with (Numpy.wrap64 1) at 1.
  rewrite prod_fold. f_equal. lia.
Qed.

Lemma fold_mul_product l : forall acc, fold_left Z.mul l acc = acc * product l.
Proof.
  induction l as [|x l IH]; intros acc; simpl; [lia | rewrite IH; lia].
Qed.

Lemma prod_exact l :
  Numpy.is_int64_array l = false -> Numpy.prod l = product l.
Proof.
  intros Hobj. unfold Numpy.prod. rewrite Hobj, fold_mul_product. lia.
Qed.

Lemma is_int64_array_Forall l :
  Numpy.is_int64_array l = true <-> Forall (fun z => - 2 ^ 63 <= z < 2 ^ 63) l.
Proof.
  unfold Numpy.is_int64_array. rewrite forallb_forall, Forall_forall.
  split; intros H z Hz.
  - apply list_elem_of_In, H in Hz. unfold Numpy.fits_int64 in Hz. lia.
  - apply list_elem_of_In, H in Hz. unfold Numpy.fits_int64. lia.
Qed.

Lemma valid_axes_int64 S :
  Forall (fun d => 0 <= d < 2 ^ 63) S -> Numpy.is_int64_array S = true.
Proof.
  intros HS. apply is_int64_array_Forall.
  eapply Forall_impl; [exact HS|]. simpl; lia.
Qed.

Lemma product_nonneg l : Forall (fun d => 0 <= d) l -> 0 <= product l.
Proof.
  induction 1 as [|d l Hd _ IH]; simpl; [lia | nia].
Qed.

(** With no zero among the divisors, [any_remainder] cannot raise: it says
    whether some pair leaves a remainder. *)
Lemma any_remainder_nonzero pairs :
  Forall (fun p => snd p <> 0) pairs ->
  any_remainder pairs
  = Ok (negb (forallb (fun p => fst p mod snd p =? 0) pairs)).
Proof.
  induction 1 as [|[dim1 dim2] pairs Hnz _ IH]; simpl in *; [reflexivity|].
  destruct (Z.eqb_spec dim2 0) as [|_]; [contradiction|].
  destruct (dim1 mod dim2 =? 0); [exact IH | reflexivity].
Qed.

Lemma combine_snd_nonzero (S B : list Z) :
  Forall (fun b => b <> 0) B -> Forall (fun p => snd p <> 0) (combine S B).
Proof.
  intros HB. revert S.
  induction HB as [|b B Hb _ IH]; intros [|s S]; simpl; constructor; auto.
Qed.

Lemma remainders_divide (S B : list Z) :
  length S = length B -> Forall (fun b => 0 < b) B ->
  forallb (fun p => fst p mod snd p =? 0) (combine S B) = true
  <-> Forall2 (fun s b => (b | s)) S B.
Proof.
  revert B. induction S as [|s S IH]; intros [|b B] Hlen HB;
    simpl in *; try discriminate.
  - split; [constructor | reflexivity].
  - inversion HB as [|? ? Hb HB']; subst.
    rewrite andb_true_iff, Z.eqb_eq, (IH B) by (auto; lia).
    rewrite Z.mod_divide by lia.
    split.
    + intros [? ?]; constructor; assumption.
    + intros H; inversion H; subst; split; assumption.
Qed.

(** Blocks that divide an array axis by axis hold no more elements than the
    array, unless the array is empty. *)
Lemma divide_product_le (S B : list Z) :
  Forall2 (fun s b => (b | s)) S B ->
  Forall (fun d => 0 <= d) S -> Forall (fun b => 0 < b) B ->
  product S = 0 \/ 0 < product B <= product S.
Proof.
  induction 1 as [|s b S B Hdiv _ IH]; intros HS HB; simpl.
  - right; lia.
  - inversion HS as [|? ? Hs HS']; inversion HB as [|? ? Hb HB']; subst.
    destruct (IH HS' HB') as [H0 | Hle]; [left; rewrite H0; lia|].
    destruct (Z.eq_dec s 0) as [-> | Hs0]; [left; lia|].
    right. assert (b <= s) by (apply Z.divide_pos_le; [lia | assumption]).
    nia.
Qed.

Lemma floordiv_exact n d :
  0 <= n < 2 ^ 63 -> 0 < d -> Numpy.floordiv n d = n / d.
Proof.
  intros Hn Hd. unfold Numpy.floordiv.
  destruct (Z.eqb_spec d 0); [lia|].
  apply wrap64_small.
  pose proof (Z.div_pos n d ltac:(lia) Hd).
  pose proof (Z.div_le_upper_bound n d n Hd ltac:(nia)). lia.
Qed.

Lemma product_pos (l : list Z) : Forall (fun d => 0 < d) l -> 0 < product l.
Proof.
  induction 1 as [|d l Hd _ IH]; simpl; [lia | nia].
Qed.

(** On a block shape of positive axes whose product does not overflow, or
    under a zero numerator, the quotient by the product is the exact floor
    quotient, whichever kind of array the shape makes. *)
Lemma floordiv_prod_positive n t :
  0 <= n < 2 ^ 63 -> Forall (fun b => 0 < b) t ->
  n = 0 \/ product t < 2 ^ 63 ->
  Numpy.floordiv_prod n t = Ok (n / product t).
Proof.
  intros Hn Hpos Hcase. pose proof (product_pos _ Hpos) as Hprod.
  unfold Numpy.floordiv_prod.
  destruct (Numpy.is_int64_array t) eqn:Hint.
  - rewrite prod_wrap by exact Hint. f_equal.
    destruct Hcase as [-> | Hlt].
    + unfold Numpy.floordiv. rewrite !Zdiv_0_l. destruct (_ =? 0); reflexivity.
    + rewrite wrap64_small by lia. apply floordiv_exact; lia.
  - rewrite prod_exact by exact Hint.
    destruct (Z.eqb_spec (product t) 0); [lia | reflexivity].
Qed.

(** C1. With [overlapping=False], a block-shaped argument whose array shape
    is, axis by axis, an exact multiple of its block shape gets the block
    count [size(S) / size(B)]; when some axis is not an exact multiple, the
    assertion of line 170 fails (the spec's IndivisibleBlockShape). *)
Theorem nonoverlapping_blockcount
    (center_as_origin : bool) (argname : string) (data : ndarray)
    (shape : list Z) :
  length (nd_shape data) = length shape ->
  Forall (fun b => 0 < b) shape ->
  valid_shape (nd_shape data) ->
  (Forall2 (fun s b => (b | s)) (nd_shape data) shape ->
   blockcount_of false center_as_origin argname data shape
   = Ok (nd_size data / product shape))
  /\ (~ Forall2 (fun s b => (b | s)) (nd_shape data) shape ->
      blockcount_of false center_as_origin argname data shape
      = Raise (AssertionError (NotIntegerMultiple argname))).
Proof.
  intros Hlen HB [HS Hsize].
  assert (HS0 : Forall (fun d => 0 <= d) (nd_shape data))
    by (eapply Forall_impl; [exact HS|]; simpl; lia).
  unfold blockcount_of. simpl.
  rewrite any_remainder_nonzero
    by (apply combine_snd_nonzero; eapply Forall_impl; [exact HB|];
        simpl; lia).
  pose proof (remainders_divide _ _ Hlen HB) as Hiff.
  destruct (forallb _ (combine (nd_shape data) shape)) eqn:Hall; simpl.
  - split; [intros Hdiv | intros Hn; exfalso; apply Hn, Hiff; reflexivity].
    unfold nd_size.
    pose proof (product_nonneg _ HS0) as Hnonneg.
    apply floordiv_prod_positive; [lia | exact HB |].
    destruct (divide_product_le _ _ Hdiv HS0 HB) as [H0 | Hle];
      [left; exact H0 | right; lia].
  - split; [intros Hdiv; apply Hiff in Hdiv; discriminate | reflexivity].
Qed.

Lemma nonoverlapping_blockcount_witness :
  blockcount_of false false "a" (mk_ndarray [4; 6] 4) [2; 3] = Ok 4.
Proof.
  refine (proj1 (nonoverlapping_blockcount false "a" (mk_ndarray [4; 6] 4)
                   [2; 3] _ _ _) _).
  - reflexivity.
  - repeat constructor.
  - split; [repeat constructor; simpl; lia | reflexivity].
  - repeat constructor; simpl.
    + exists 2; reflexivity.
    + exists 2; reflexivity.
Defined.

(** ** Sliding windows *)

(** A block shape that is not all ones never reaches the sliding-window
    branch: [overlapping] makes no difference to it. *)
Lemma overlapping_ignored (center_as_origin : bool) (argname : string)
    (data : ndarray) (shape : list Z) :
  all_ones shape = false ->
  blockcount_of true center_as_origin argname data shape
  = blockcount_of false center_as_origin argname data shape.
Proof.
  intros Hones. unfold blockcount_of. rewrite Hones. reflexivity.
Qed.

(** C2. With [overlapping=True], [center_as_origin=False] and the block
    shape (3, 3), a 6x6 array gets the block count 36 / 9 = 4 where the
    sliding-window formula gives 16, and a 4x4 array fails the assertion of
    line 170 where the formula gives 4. *)
Theorem overlapping_block_is_divided :
  blockcount_of true false "a" (mk_ndarray [6; 6] 4) [3; 3] = Ok 4
  /\ sliding_window_count [6; 6] [3; 3] = 16
  /\ blockcount_of true false "a" (mk_ndarray [4; 4] 4) [3; 3]
     = Raise (AssertionError (NotIntegerMultiple "a"))
  /\ sliding_window_count [4; 4] [3; 3] = 4.
Proof.
  repeat split; reflexivity.
Qed.

Lemma all_ones_Forall shape : all_ones shape = true -> Forall (eq 1) shape.
Proof.
  unfold all_ones. intros H. apply bool_decide_eq_true in H.
  rewrite H. unfold tuple_mul.
  generalize (Z.to_nat (Z.of_nat (length shape))) as n.
  induction n as [|n IH]; simpl; constructor; auto.
Qed.

Lemma zip_sub_ones (S shape : list Z) :
  length S = length shape -> Forall (eq 1) shape ->
  Forall (fun d => 0 <= d < 2 ^ 63) S ->
  Numpy.zip_sub S (Numpy.sub_scalar shape 1) = S.
Proof.
  intros Hlen Hones. revert S Hlen.
  induction Hones as [|b shape <- _ IH]; intros [|s S] Hlen HS;
    simpl in *; try discriminate; [reflexivity|].
  inversion HS; subst.
  change (Numpy.wrap64 (1 - 1)) with 0.
  rewrite Z.sub_0_r, wrap64_small by lia.
  f_equal. apply IH; [lia | assumption].
Qed.

Lemma sliding_window_ones (S shape : list Z) :
  length S = length shape -> Forall (eq 1) shape ->
  sliding_window_count S shape = product S.
Proof.
  intros Hlen Hones. revert S Hlen. unfold sliding_window_count.
  induction Hones as [|b shape <- _ IH]; intros [|s S] Hlen;
    simpl in *; try discriminate; [reflexivity|].
  rewrite IH by lia. lia.
Qed.

Lemma product_zero_axis (S : list Z) (k : nat) :
  S !! k = Some 0 -> product S = 0.
Proof.
  revert k. induction S as [|s S IH]; intros [|k] Hk; simpl in *;
    try discriminate.
  - injection Hk as ->. lia.
  - rewrite (IH k Hk). lia.
Qed.

Lemma prod_valid (S : list Z) :
  Forall (fun d => 0 <= d < 2 ^ 63) S -> product S < 2 ^ 63 ->
  Numpy.prod S = product S.
Proof.
  intros HS Hsize. rewrite prod_wrap by (apply valid_axes_int64; exact HS).
  apply wrap64_small.
  assert (0 <= product S); [|lia].
  apply product_nonneg. eapply Forall_impl; [exact HS|]. simpl; lia.
Qed.

(** C5, as the code has it. The sliding-window branch (reached with an
    all-ones block shape) makes no test of the axis terms: with
    [overlapping=True] and [center_as_origin=False] the block count is the
    product of the terms [S[axis] - (B[axis] - 1)], and where an axis of the
    block exceeds the axis of the array the call does not fail: the count
    is 0. *)
Theorem sliding_window_never_too_large (argname : string) (data : ndarray)
    (shape : list Z) :
  valid_shape (nd_shape data) ->
  length (nd_shape data) = length shape ->
  all_ones shape = true ->
  blockcount_of true false argname data shape
  = Ok (sliding_window_count (nd_shape data) shape)
  /\ (forall k s b, nd_shape data !! k = Some s -> shape !! k = Some b ->
        s < b ->
        blockcount_of true false argname data shape = Ok 0).
Proof.
  intros [HS Hsize] Hlen Hones.
  pose proof (all_ones_Forall _ Hones) as Hall.
  assert (Hcount : blockcount_of true false argname data shape
                   = Ok (product (nd_shape data))).
  { unfold blockcount_of. rewrite Hones. simpl.
    unfold Numpy.sub. unfold Numpy.sub_scalar at 1.
    rewrite length_map, Hlen, Nat.eqb_refl. simpl.
    rewrite zip_sub_ones by assumption.
    rewrite prod_valid by assumption. reflexivity. }
  split.
  - rewrite sliding_window_ones by assumption. exact Hcount.
  - intros k s b Hs Hb Hlt. rewrite Hcount. f_equal.
    assert (b = 1) as ->.
    { rewrite Forall_lookup in Hall. symmetry. exact (Hall k b Hb). }
    assert (0 <= s < 2 ^ 63) by (rewrite Forall_lookup in HS; exact (HS k s Hs)).
    assert (s = 0) as -> by lia.
    exact (product_zero_axis _ _ Hs).
Qed.

Lemma sliding_window_never_too_large_witness :
  blockcount_of true false "a" (mk_ndarray [0; 5] 4) [1; 1] = Ok 0.
Proof.
  refine (proj2 (sliding_window_never_too_large "a" (mk_ndarray [0; 5] 4)
                   [1; 1] _ _ _) 0%nat 0 1 _ _ _);
    try reflexivity.
  split; [repeat constructor; simpl; lia | reflexivity].
Defined.

(** The claim C5 fails on the code: with [overlapping=True] and
    [center_as_origin=False], the block (1,) exceeds the array axis of the
    empty array (0,), its term 0 - (1 - 1) is not positive, and the block
    count is 0 without any error. Where the array is not empty, as for the
    block (3,) over the array (2,), the error is the indivisibility assertion
    of line 170. *)
Lemma block_too_large_not_reported :
  1 > 0
  /\ sliding_window_count [0] [1] <= 0
  /\ blockcount_of true false "a" (mk_ndarray [0] 4) [1] = Ok 0
  /\ blockcount_of true false "a" (mk_ndarray [2] 4) [3]
     = Raise (AssertionError (NotIntegerMultiple "a")).
Proof.
  repeat split; reflexivity.
Qed.

(** ** Ranks *)

(** C7, as the code has it. With [overlapping=False] the ranks of the array
    and of its block shape are not compared: [zip] pairs the axes both have,
    a remainder among those fails the assertion of line 170, and otherwise
    the block count is [size(S)] floor-divided by [size(B)]; a difference in
    rank is not an error. This for a block shape of positive axes whose
    element count fits a signed 64-bit integer, so that its product does
    not wrap around. *)
Theorem rank_is_not_checked (center_as_origin : bool) (argname : string)
    (data : ndarray) (shape : list Z) :
  length (nd_shape data) <> length shape ->
  valid_shape (nd_shape data) ->
  Forall (fun b => 0 < b) shape ->
  product shape < 2 ^ 63 ->
  blockcount_of false center_as_origin argname data shape
  = if forallb (fun p => fst p mod snd p =? 0)
               (combine (nd_shape data) shape)
    then Ok (nd_size data / product shape)
    else Raise (AssertionError (NotIntegerMultiple argname)).
Proof.
  intros _ Hvalid HB Hfits. unfold blockcount_of. simpl.
  rewrite any_remainder_nonzero
    by (apply combine_snd_nonzero; eapply Forall_impl; [exact HB|];
        simpl; lia).
  destruct (forallb _ _); simpl; [|reflexivity].
  destruct Hvalid as [HS Hsize].
  apply floordiv_prod_positive; [|exact HB | right; exact Hfits].
  split; [|exact Hsize].
  apply product_nonneg. eapply Forall_impl; [exact HS|]. simpl; lia.
Qed.

Lemma rank_is_not_checked_witness :
  blockcount_of false false "a" (mk_ndarray [4; 5] 4) [2]
  = if forallb (fun p => fst p mod snd p =? 0) (combine [4; 5] [2])
    then Ok (nd_size (mk_ndarray [4; 5] 4) / product [2])
    else Raise (AssertionError (NotIntegerMultiple "a")).
Proof.
  apply (rank_is_not_checked false "a" (mk_ndarray [4; 5] 4) [2]).
  - simpl. lia.
  - split; [repeat constructor; simpl; lia | reflexivity].
  - repeat constructor.
  - reflexivity.
Defined.

(** The claim C7 fails on the code: a 4x5 array (rank 2) with the block
    shape (2,) (rank 1) is partitioned into 10 blocks. *)
Lemma rank_mismatch_accepted :
  length (nd_shape (mk_ndarray [4; 5] 4)) <> length [2]
  /\ blockcount_of false false "a" (mk_ndarray [4; 5] 4) [2] = Ok 10.
Proof.
  split; [simpl; lia | reflexivity].
Qed.

(** ** Type mapper *)

(** The rows of the table that [get_arg_type] honours. *)
Lemma get_arg_type_table :
  get_arg_type np_int8 = Ok ("b", "char")
  /\ get_arg_type np_uint8 = Ok ("B", "unsigned char")
  /\ get_arg_type np_int16 = Ok ("h", "short")
  /\ get_arg_type np_uint16 = Ok ("H", "unsigned short")
  /\ get_arg_type np_int32 = Ok ("i", "int")
  /\ get_arg_type np_uint32 = Ok ("I", "unsigned int")
  /\ get_arg_type np_uint64 = Ok ("L", "unsigned long")
  /\ get_arg_type np_float32 = Ok ("f", "float")
  /\ get_arg_type IntArray = Ok ("P", "IntArray")
  /\ get_arg_type FloatArray = Ok ("P", "FloatArray").
Proof.
  repeat split; reflexivity.
Qed.

(** The branch of line 131 is dead: no class is mapped to "d". *)
Lemma double_is_unreachable (arg : pyclass) :
  get_arg_type arg <> Ok ("d", "double").
Proof.
  destruct arg; discriminate.
Qed.

(** Whatever class is refused, the exception is the [NameError] of the
    unbound [tp]. *)
Lemma unsupported_raises_NameError (arg : pyclass) (e : exn) :
  get_arg_type arg = Raise e -> e = NameError "tp".
Proof.
  destruct arg; intros H; vm_compute in H; try discriminate;
    injection H as <-; reflexivity.
Qed.

(** C8. [get_arg_type(numpy.float64)] returns the pair of float32, since
    [numpy.float64] derives from Python's [float], which line 128 tests
    first; and for a class outside the table, such as [str], the [raise] of
    line 132 ends in a [NameError] for [tp] instead of the [ValueError]
    naming the class. *)
Theorem float64_is_mapped_to_float :
  get_arg_type np_float64 = Ok ("f", "float")
  /\ get_arg_type py_str = Raise (NameError "tp").
Proof.
  split; reflexivity.
Qed.

(** C10. Python's builtin [float] is mapped like [numpy.float32], to
    ("f", "float") and not to ("d", "double"); Python's builtin [int] is
    mapped like [numpy.int32], to ("i", "int"). *)
Theorem builtin_scalars_are_32_bit :
  get_arg_type py_float = Ok ("f", "float")
  /\ get_arg_type py_float = get_arg_type np_float32
  /\ get_arg_type py_float <> Ok ("d", "double")
  /\ get_arg_type py_int = Ok ("i", "int")
  /\ get_arg_type py_int = get_arg_type np_int32.
Proof.
  repeat split; try reflexivity. discriminate.
Qed.

(** ** Device array descriptor *)

Lemma GPUArray_init_run (data : ndarray) (d : device) :
  GPUArray.__init__ data d
  = (Ok (GPUArray.mk data (next_free d) (next_free d + GPUArray.size)),
     {| next_free := next_free d + GPUArray.size
                     + nd_size data * nd_itemsize data;
        calls := calls d ++
          [MemAlloc GPUArray.size (next_free d);
           ToDevice data (next_free d + GPUArray.size);
           MemcpyHtoD (next_free d) [next_free d + GPUArray.size];
           MemcpyHtoD (next_free d + intpsize)
             (map wrap32
                ((nd_shape data ++ tuple_mul (4 - nd_ndim data) [0]) ++
                 tuple_mul 4 [0] ++ [nd_ndim data; nd_size data]))] |}).
Proof.
  unfold GPUArray.__init__, dbind, driver.mem_alloc, driver.to_device,
    driver.memcpy_htod, dret. simpl.
  repeat rewrite <- app_assoc. reflexivity.
Qed.

(** C9, as the code has it. Whatever the rank of the host array, building
    its descriptor makes one [mem_alloc], of [GPUArray.size] bytes: the
    pointer width plus ten int32 fields, 48 bytes, not rounded up to the
    64-byte alignment of the device struct. *)
Theorem descriptor_size_is_fixed (data : ndarray) (d : device) :
  GPUArray.size = intpsize + 10 * int32size
  /\ GPUArray.size = 48
  /\ exists rest,
       calls (snd (GPUArray.__init__ data d))
       = calls d ++ MemAlloc GPUArray.size (next_free d) :: rest
       /\ Forall (fun c => forall bytes ptr, c <> MemAlloc bytes ptr) rest.
Proof.
  split; [reflexivity|]. split; [reflexivity|].
  rewrite GPUArray_init_run. simpl.
  eexists. split; [reflexivity|].
  repeat constructor; discriminate.
Qed.

(** The claim C9 fails on the code: the descriptor of a 2x3 array is
    allocated with 48 bytes, where the members of the struct rounded up to
    its alignment make 64. *)
Lemma descriptor_is_not_rounded :
  calls (snd (GPUArray.__init__ (mk_ndarray [2; 3] 4) (mk_device 0 []))) !! 0%nat
  = Some (MemAlloc 48 0)
  /\ round_up ArrayStruct_align (fold_right Z.add 0 ArrayStruct_members)
     = 64.
Proof.
  split; reflexivity.
Qed.

(** ** Declaration *)





(** ** The loop over the arguments *)

(** Uploading never raises; what it leaves on the device does not depend on
    the arrays collected so far. *)
Lemma wrap_ndarray_run (arg : pyarg) (arrays : list GPUArray.t) (d : device) :
  exists wrapped,
    wrap_ndarray arg arrays d = (Ok wrapped, snd (wrap_ndarray arg [] d)).
Proof.
  destruct arg as [a|g|v]; unfold wrap_ndarray, dbind, dret;
    rewrite ?GPUArray_init_run; simpl; eauto.
Qed.


Lemma upload_all_Ok (args : list pyarg) (d : device) :
  fst (upload_all args d) = Ok tt.
Proof.
  revert d. induction args as [|arg args IH]; intros d; simpl; [reflexivity|].
  unfold dbind. destruct (wrap_ndarray_run arg [] d) as [w ->]. apply IH.
Qed.

Lemma upload_all_cons (arg : pyarg) (args : list pyarg) (d : device) :
  upload_all (arg :: args) d = upload_all args (snd (wrap_ndarray arg [] d)).
Proof.
  simpl. unfold dbind. destruct (wrap_ndarray_run arg [] d) as [w ->].
  reflexivity.
Qed.



(** One turn of the loop: the upload, then the count. *)
Lemma loop_body_run (i : info) (st : locals) (argname : string) (arg : pyarg)
    (d : device) :
  exists wrapped,
    wrap_ndarray arg (arrays st) d
    = (Ok wrapped, snd (wrap_ndarray arg [] d))
    /\ loop_body i st argname arg d
       = match fst wrapped with
         | inl g =>
             match update_count i argname g (count st) with
             | Ok count' =>
                 (Ok (mk_locals (kernel_args st ++ [GPUArray.pointer g])
                                (snd wrapped) count'),
                  snd (wrap_ndarray arg [] d))
             | Raise e => (Raise e, snd (wrap_ndarray arg [] d))
             end
         | inr v =>
             (Ok (mk_locals (kernel_args st ++ [v]) (snd wrapped) (count st)),
              snd (wrap_ndarray arg [] d))
         end.
Proof.
  destruct (wrap_ndarray_run arg (arrays st) d) as [w Hw].
  exists w. split; [exact Hw|].
  unfold loop_body, dbind. rewrite Hw.
  destruct (fst w) as [g|v]; [|reflexivity].
  unfold lift. destruct (update_count i argname g (count st)); reflexivity.
Qed.

Lemma for_args_app (i : info) (pre rest : list (string * pyarg)) (st : locals)
    (d : device) :
  for_args i (pre ++ rest) st d
  = match for_args i pre st d with
    | (Ok st', d') => for_args i rest st' d'
    | (Raise e, d') => (Raise e, d')
    end.
Proof.
  revert st d. induction pre as [|[argname arg] pre IH]; intros st d; simpl.
  - reflexivity.
  - unfold dbind. destruct (loop_body i st argname arg d) as [[st'|e] d'].
    + apply IH.
    + reflexivity.
Qed.

(** When the loop gets through its arguments, the device holds the uploads
    of all of them. *)
Lemma for_args_Ok_device (i : info) (zipped : list (string * pyarg))
    (st st' : locals) (d d' : device) :
  for_args i zipped st d = (Ok st', d') ->
  snd (upload_all (map snd zipped) d) = d'.
Proof.
  revert st d. induction zipped as [|[argname arg] zipped IH]; intros st d.
  - simpl. unfold dret. intros [= _ <-]. reflexivity.
  - simpl map. rewrite upload_all_cons. simpl. unfold dbind.
    destruct (loop_body_run i st argname arg d) as (w & _ & ->).
    destruct (fst w) as [g|v].
    + destruct (update_count i argname g (count st)); [|discriminate].
      apply IH.
    + apply IH.
Qed.




(** ** Errors and the device *)




(** ** Consistency of the block counts *)

(** X29. The comparison of lines 177-182. An argument with a block shape is
    compared with the count kept from the arguments before it only when that
    count is not zero: then a different count raises the assertion of line
    178, naming the argument. When the count kept is zero (no block-shaped
    argument yet, or one of zero blocks) or equal, the loop goes on with the
    count of this argument. *)
Theorem count_mismatch_is_raised (i : info) (args : list pyarg)
    (pre rest : list (string * pyarg)) (argname : string) (arg : pyarg)
    (d d1 d2 : device) (st : locals) (g : GPUArray.t)
    (arrays1 : list GPUArray.t) (shape : list Z) (blockcount : Z) :
  combine (func_args (func i)) args = pre ++ (argname, arg) :: rest ->
  for_args i pre (mk_locals [] [] 0) d = (Ok st, d1) ->
  wrap_ndarray arg (arrays st) d1 = (Ok (inl g, arrays1), d2) ->
  blockshapes i !! argname = Some shape ->
  shape <> [] ->
  blockcount_of (overlapping i) (center_as_origin i) argname
                (GPUArray.data g) shape = Ok blockcount ->
  (count st <> 0 -> blockcount <> count st ->
   _gpu_func i args d
   = (Raise (AssertionError (BlockCountMismatch argname)), d2))
  /\ (count st = 0 \/ blockcount = count st ->
      for_args i (pre ++ [(argname, arg)]) (mk_locals [] [] 0) d
      = (Ok (mk_locals (kernel_args st ++ [GPUArray.pointer g]) arrays1
                       blockcount), d2)).
Proof.
  intros Hzip Hpre Hwrap Hshape Hne Hbc.
  assert (Hbody : loop_body i st argname arg d1
                  = if count st =? 0
                    then (Ok (mk_locals (kernel_args st ++ [GPUArray.pointer g])
                                        arrays1 blockcount), d2)
                    else if count st =? blockcount
                    then (Ok (mk_locals (kernel_args st ++ [GPUArray.pointer g])
                                        arrays1 blockcount), d2)
                    else (Raise (AssertionError (BlockCountMismatch argname)),
                          d2)).
  { unfold loop_body, dbind. rewrite Hwrap. simpl.
    unfold lift, update_count. rewrite Hshape.
    destruct shape as [|b shape]; [contradiction|].
    rewrite Hbc. simpl.
    destruct (count st =? 0); [reflexivity|]. simpl.
    destruct (count st =? blockcount); reflexivity. }
  split.
  - intros Hnz Hdiff. unfold _gpu_func, dbind.
    rewrite Hzip, for_args_app, Hpre. simpl. unfold dbind.
    rewrite Hbody.
    destruct (Z.eqb_spec (count st) 0); [contradiction|].
    destruct (Z.eqb_spec (count st) blockcount); [congruence | reflexivity].
  - intros Hcase. rewrite for_args_app, Hpre. simpl. unfold dbind.
    rewrite Hbody.
    destruct (Z.eqb_spec (count st) 0); [reflexivity|].
    destruct (Z.eqb_spec (count st) blockcount); [reflexivity|].
    destruct Hcase; congruence.
Qed.

Lemma count_mismatch_is_raised_witness :
  _gpu_func two_blocks
            [DeviceArray (GPUArray.mk (mk_ndarray [4] 4) 0 48);
             DeviceArray (GPUArray.mk (mk_ndarray [6] 4) 64 112)]
            (mk_device 136 [])
  = (Raise (AssertionError (BlockCountMismatch "b")), mk_device 136 []).
Proof.
  refine (proj1 (count_mismatch_is_raised two_blocks
            [DeviceArray (GPUArray.mk (mk_ndarray [4] 4) 0 48);
             DeviceArray (GPUArray.mk (mk_ndarray [6] 4) 64 112)]
            [("a", DeviceArray (GPUArray.mk (mk_ndarray [4] 4) 0 48))] []
            "b" (DeviceArray (GPUArray.mk (mk_ndarray [6] 4) 64 112))
            (mk_device 136 []) (mk_device 136 []) (mk_device 136 [])
            (mk_locals [0] [] 2) (GPUArray.mk (mk_ndarray [6] 4) 64 112)
            [] [2] 3 _ _ _ _ _ _) _ _);
    try reflexivity; try discriminate.
Defined.

(** C6. The code departs from the claim, and from the message of its own
    assertion at line 178, where a block-shaped argument has zero blocks:
    line 177 tests [if count:] with 0 as the mark of no count yet (line
    147), so a count of zero kept from an argument is taken for no count at
    all. A non-empty array of 2 elements whose block shape (2, 5) has more
    elements than the array has 0 blocks, the array (4,) that follows has 2
    blocks of shape (2,), and the call goes through without the comparison,
    launching the kernel for 2 blocks. The same happens after an empty array
    (0,) with blocks of 2 elements. *)
Lemma zero_count_is_not_compared :
  blockcount_of false false "a" (mk_ndarray [0] 4) [2] = Ok 0
  /\ blockcount_of false false "b" (mk_ndarray [4] 4) [2] = Ok 2
  /\ _gpu_func two_blocks
       [DeviceArray (GPUArray.mk (mk_ndarray [0] 4) 0 48);
        DeviceArray (GPUArray.mk (mk_ndarray [4] 4) 64 112)]
       (mk_device 136 [])
     = (Ok tt, mk_device 136
                 [SetBlockShape 2; PreparedCall [0; 64; 2]])
  /\ blockcount_of false false "a" (mk_ndarray [2] 4) [2; 5] = Ok 0
  /\ _gpu_func (mk_info (mk_pyfunc "f" ["a"; "b"] (Ok tt))
                        (<["a" := [2; 5]]> (<["b" := [2]]> ∅)) false false
                        ∅ true)
       [DeviceArray (GPUArray.mk (mk_ndarray [2] 4) 0 48);
        DeviceArray (GPUArray.mk (mk_ndarray [4] 4) 64 112)]
       (mk_device 136 [])
     = (Ok tt, mk_device 136
                 [SetBlockShape 2; PreparedCall [0; 64; 2]]).
Proof.
  repeat split; reflexivity.
Qed.

(** * Further properties of the code *)

(** ** [_simplify] *)

Lemma simplify_names_insert_all {V} (names : list string) (value : V)
    (simple : gmap string V) :
  simplify_names names value simple
  = insert_all (map (fun name => (name, value)) names) simple.
Proof.
  revert simple. induction names as [|name names IH]; intros simple; simpl.
  - reflexivity.
  - destruct (py_assert _ _); simpl; [apply IH | reflexivity].
Qed.

Lemma insert_all_app {V} (l1 l2 : list (string * V)) (simple : gmap string V) :
  insert_all (l1 ++ l2) simple = rbind (insert_all l1 simple) (insert_all l2).
Proof.
  revert simple. induction l1 as [|[name value] l1 IH]; intros simple; simpl.
  - reflexivity.
  - destruct (py_assert _ _); simpl; [apply IH | reflexivity].
Qed.

Lemma simplify_items_insert_all {V} (items : list (names_key * V))
    (simple : gmap string V) :
  simplify_items items simple = insert_all (flat_items items) simple.
Proof.
  revert simple. induction items as [|[names value] items IH]; intros simple;
    simpl.
  - reflexivity.
  - rewrite insert_all_app, simplify_names_insert_all.
    destruct (insert_all _ simple); simpl; [apply IH | reflexivity].
Qed.

Lemma insert_all_Ok {V} (l : list (string * V)) (simple m : gmap string V) :
  insert_all l simple = Ok m
  <-> NoDup l.*1 /\ (forall name, name ∈ l.*1 -> simple !! name = None)
      /\ m = list_to_map l ∪ simple.
Proof.
  revert simple m.
  induction l as [|[name value] l IH]; intros simple m; simpl.
  - rewrite (left_id_L ∅ (∪)). split.
    + intros [= <-]. split; [constructor|]. split; [|reflexivity].
      intros name Hin. inversion Hin.
    + intros (_ & _ & ->). reflexivity.
  - unfold py_assert. case_bool_decide as Hfresh; simpl.
    + rewrite IH, NoDup_cons. split.
      * intros (Hnd & Hnew & ->). split; [split; [|exact Hnd]|].
        { intros Hin. specialize (Hnew name Hin).
          rewrite lookup_insert_eq in Hnew. discriminate. }
        split.
        { intros k Hk. apply elem_of_cons in Hk as [-> | Hk]; [exact Hfresh|].
          specialize (Hnew k Hk).
          destruct (decide (name = k)) as [-> | Hne].
          - rewrite lookup_insert_eq in Hnew. discriminate.
          - rewrite lookup_insert_ne in Hnew by exact Hne. exact Hnew. }
        rewrite <- insert_union_l. symmetry. apply insert_union_r.
        apply not_elem_of_list_to_map_1.
        intros Hin. specialize (Hnew name Hin).
        rewrite lookup_insert_eq in Hnew. discriminate.
      * intros ([Hnotin Hnd] & Hnew & ->). split; [exact Hnd|]. split.
        { intros k Hk. rewrite lookup_insert_ne.
          - apply Hnew. apply elem_of_cons. right. exact Hk.
          - intros ->. contradiction. }
        rewrite <- insert_union_l. apply insert_union_r.
        apply not_elem_of_list_to_map_1. exact Hnotin.
    + split; [discriminate|].
      intros (_ & Hnew & _). exfalso. apply Hfresh, Hnew.
      apply elem_of_cons. left. reflexivity.
Qed.

Lemma insert_all_Raise {V} (l : list (string * V)) (simple : gmap string V)
    (e : exn) :
  insert_all l simple = Raise e ->
  exists name l1 l2,
    e = AssertionError (VariableSpecifiedMultipleTimes name)
    /\ l.*1 = l1 ++ name :: l2
    /\ (is_Some (simple !! name) \/ name ∈ l1).
Proof.
  revert simple.
  induction l as [|[name value] l IH]; intros simple; cbn [insert_all].
  - discriminate.
  - unfold py_assert. case_bool_decide as Hfresh; cbn [rbind].
    + intros Hrest.
      destruct (IH _ Hrest) as (n & l1 & l2 & -> & Heq & Hdup).
      exists n, (name :: l1), l2. split; [reflexivity|].
      split; [rewrite fmap_cons, Heq; reflexivity|].
      destruct Hdup as [Hsome | Hin].
      * destruct (decide (name = n)) as [-> | Hne].
        -- right. apply elem_of_cons. left. reflexivity.
        -- left. rewrite lookup_insert_ne in Hsome by exact Hne. exact Hsome.
      * right. apply elem_of_cons. right. exact Hin.
    + intros [= <-]. exists name, [], (l.*1).
      split; [reflexivity|]. split; [reflexivity|].
      left. destruct (simple !! name); [eauto | contradiction].
Qed.

Lemma elem_of_flat_items {V} (mapping : list (names_key * V)) (name : string)
    (value : V) :
  (name, value) ∈ flat_items mapping
  <-> exists key, (key, value) ∈ mapping /\ name ∈ key_names key.
Proof.
  unfold flat_items. rewrite list_elem_of_In, in_flat_map. split.
  - intros ([key v] & Hin & Hname). simpl in Hname.
    apply in_map_iff in Hname as (n & [= -> ->] & Hn).
    exists key. split; apply list_elem_of_In; assumption.
  - intros (key & Hin & Hname). exists (key, value).
    split; [apply list_elem_of_In; exact Hin|].
    simpl. apply in_map_iff. exists name.
    split; [reflexivity | apply list_elem_of_In; exact Hname].
Qed.

(** X1. [_simplify] succeeds exactly when no variable name occurs twice,
    within a group or across groups; the dict it returns then holds every
    name of every group with the value of its group, and nothing else. *)
Theorem simplify_Ok_iff {V} (mapping : list (names_key * V))
    (m : gmap string V) :
  _simplify mapping = Ok m
  <-> NoDup (flat_items mapping).*1 /\ m = list_to_map (flat_items mapping).
Proof.
  unfold _simplify. rewrite simplify_items_insert_all, insert_all_Ok.
  rewrite (right_id_L ∅ (∪)). split.
  - intros (Hnd & _ & ->). split; [exact Hnd | reflexivity].
  - intros (Hnd & ->). split; [exact Hnd|]. split; [|reflexivity].
    intros name _. apply lookup_empty.
Qed.

(** X2. In the dict [_simplify] returns, a name is bound to a value exactly
    when the mapping has a key holding that name (alone or in a group) with
    that value. *)
Theorem simplify_lookup {V} (mapping : list (names_key * V))
    (m : gmap string V) (name : string) (value : V) :
  _simplify mapping = Ok m ->
  m !! name = Some value
  <-> exists key, (key, value) ∈ mapping /\ name ∈ key_names key.
Proof.
  unfold _simplify. rewrite simplify_items_insert_all.
  intros Hm. apply insert_all_Ok in Hm as (Hnd & _ & ->).
  rewrite (right_id_L ∅ (∪)), <- elem_of_list_to_map by exact Hnd.
  apply elem_of_flat_items.
Qed.

Lemma simplify_lookup_witness :
  (<["a" := 1]> (<["b" := 1]> (<["c" := 2]> ∅)) : gmap string Z) !! "b"
  = Some 1
  <-> exists key, (key, 1) ∈ [(Names ["a"; "b"], 1); (Name "c", 2)]
                  /\ "b" ∈ key_names key.
Proof.
  apply (simplify_lookup [(Names ["a"; "b"], 1); (Name "c", 2)]).
  reflexivity.
Defined.

(** X3. When [_simplify] fails, it fails with the assertion of line 17, and
    the variable it names occurs at least twice among the names of the
    mapping. *)
Theorem simplify_Raise_names_duplicate {V} (mapping : list (names_key * V))
    (e : exn) :
  _simplify mapping = Raise e ->
  exists name l1 l2 l3,
    e = AssertionError (VariableSpecifiedMultipleTimes name)
    /\ (flat_items mapping).*1 = l1 ++ name :: l2 ++ name :: l3.
Proof.
  unfold _simplify. rewrite simplify_items_insert_all. intros Hraise.
  destruct (insert_all_Raise _ _ _ Hraise)
    as (name & l1 & l2 & -> & Heq & [Hsome | Hin]).
  - rewrite lookup_empty in Hsome. destruct Hsome; discriminate.
  - apply list_elem_of_split in Hin as (l1a & l1b & ->).
    exists name, l1a, l1b, l2. split; [reflexivity|].
    rewrite Heq, <- app_assoc. reflexivity.
Qed.

Lemma simplify_Raise_names_duplicate_witness :
  exists name l1 l2 l3,
    AssertionError (VariableSpecifiedMultipleTimes "a")
    = AssertionError (VariableSpecifiedMultipleTimes name)
    /\ (flat_items [(Names ["a"; "b"], [3; 3]); (Name "a", [1; 1])]).*1
       = l1 ++ name :: l2 ++ name :: l3.
Proof.
  apply (simplify_Raise_names_duplicate
           [(Names ["a"; "b"], [3; 3]); (Name "a", [1; 1])]).
  reflexivity.
Defined.

(** ** Declaration: [blockwise] and [_blockwise] *)

(** What a successful declaration has gone through. *)
Lemma declare_Ok_inv (shapes : list (names_key * list Z))
    (tys : list (names_key * pyclass)) (o c : bool) (name : option string)
    (f : pyfunc) (reg reg' : gmap string info) :
  declare shapes tys o c name f reg = Ok reg' ->
  exists bs ts converted,
    _simplify shapes = Ok bs
    /\ _simplify tys = Ok ts
    /\ o || negb c = true
    /\ convert_types (map_to_list ts) ∅ = Ok converted
    /\ reg !! registered_name name f = None
    /\ reg' = <[registered_name name f := mk_info f bs o c converted false]> reg.
Proof.
  unfold declare, blockwise.
  destruct (_simplify shapes) as [bs|] eqn:Hbs; simpl; [|discriminate].
  destruct (_simplify tys) as [ts|] eqn:Hts; simpl; [|discriminate].
  destruct (o || negb c) eqn:Hconf; simpl; [|discriminate].
  destruct (convert_types (map_to_list ts) ∅) as [converted|] eqn:Hconv;
    simpl; [|discriminate].
  unfold _blockwise, py_assert. simpl.
  case_bool_decide as Hnew; simpl; [|discriminate].
  destruct (func_tree f) as [tree|]; simpl; [|discriminate].
  intros [= <-]. exists bs, ts, converted.
  repeat split; assumption || reflexivity.
Qed.

Lemma blockwise_Ok_name (shapes : list (names_key * list Z))
    (tys : list (names_key * pyclass)) (o c : bool) (name : option string)
    (dec : decorator) :
  blockwise shapes tys o c name = Ok dec -> dec_name dec = name.
Proof.
  unfold blockwise.
  destruct (_simplify shapes); simpl; [|discriminate].
  destruct (_simplify tys); simpl; [|discriminate].
  destruct (py_assert _ _); simpl; [|discriminate].
  destruct (convert_types _ _); simpl; [|discriminate].
  intros [= <-]. reflexivity.
Qed.

(** X4. A declaration that succeeds adds one entry under the name it
    registers, which was free before; the entry carries the function, the
    flags and the simplified block shapes and has no [gpufunc] yet; every
    other entry of the registry is left as it was. *)
Theorem declare_adds_one_entry (shapes : list (names_key * list Z))
    (tys : list (names_key * pyclass)) (o c : bool) (name : option string)
    (f : pyfunc) (reg reg' : gmap string info) :
  declare shapes tys o c name f reg = Ok reg' ->
  reg !! registered_name name f = None
  /\ (exists i,
        reg' !! registered_name name f = Some i
        /\ func i = f /\ overlapping i = o /\ center_as_origin i = c
        /\ _simplify shapes = Ok (blockshapes i)
        /\ has_gpufunc i = false)
  /\ (forall other, other <> registered_name name f ->
        reg' !! other = reg !! other).
Proof.
  intros Hdecl.
  destruct (declare_Ok_inv _ _ _ _ _ _ _ _ Hdecl)
    as (bs & ts & converted & Hbs & _ & _ & _ & Hnew & ->).
  split; [exact Hnew|]. split.
  - eexists. rewrite lookup_insert_eq. split; [reflexivity|]. simpl. auto.
  - intros other Hne. apply lookup_insert_ne. congruence.
Qed.

Lemma declare_adds_one_entry_witness :
  (∅ : gmap string info) !! registered_name (Some "g") (mk_pyfunc "f" ["a"] (Ok tt))
  = None
  /\ (exists i,
        (<["g" := mk_info (mk_pyfunc "f" ["a"] (Ok tt)) (<["a" := [3; 3]]> ∅) true false
                          (<["a" := ("P", "IntArray")]> ∅) false]> ∅
         : gmap string info)
        !! registered_name (Some "g") (mk_pyfunc "f" ["a"] (Ok tt)) = Some i
        /\ func i = mk_pyfunc "f" ["a"] (Ok tt)
        /\ overlapping i = true /\ center_as_origin i = false
        /\ _simplify [(Name "a", [3; 3])] = Ok (blockshapes i)
        /\ has_gpufunc i = false)
  /\ (forall other, other <> registered_name (Some "g") (mk_pyfunc "f" ["a"] (Ok tt)) ->
        (<["g" := mk_info (mk_pyfunc "f" ["a"] (Ok tt)) (<["a" := [3; 3]]> ∅) true false
                          (<["a" := ("P", "IntArray")]> ∅) false]> ∅
         : gmap string info) !! other = (∅ : gmap string info) !! other).
Proof.
  apply (declare_adds_one_entry [(Name "a", [3; 3])] [(Name "a", IntArray)]
           true false (Some "g") (mk_pyfunc "f" ["a"] (Ok tt)) ∅).
  reflexivity.
Defined.

(** X5. A name can be declared once: after a declaration has succeeded, any
    declaration that registers the same name fails with the assertion of
    line 37, whatever else it declares, provided its own arguments pass
    [blockwise]. *)
Theorem declare_twice_fails (shapes shapes2 : list (names_key * list Z))
    (tys tys2 : list (names_key * pyclass)) (o c o2 c2 : bool)
    (name name2 : option string) (f f2 : pyfunc)
    (reg reg' : gmap string info) :
  declare shapes tys o c name f reg = Ok reg' ->
  is_Ok (blockwise shapes2 tys2 o2 c2 name2) ->
  registered_name name2 f2 = registered_name name f ->
  declare shapes2 tys2 o2 c2 name2 f2 reg'
  = Raise (AssertionError (AlreadyRegistered (registered_name name f))).
Proof.
  intros Hdecl Hok Hname.
  destruct (declare_Ok_inv _ _ _ _ _ _ _ _ Hdecl)
    as (bs & ts & converted & _ & _ & _ & _ & _ & ->).
  unfold declare.
  destruct (blockwise shapes2 tys2 o2 c2 name2) as [dec|] eqn:Hbw;
    [|contradiction].
  simpl. unfold _blockwise, py_assert.
  rewrite (blockwise_Ok_name _ _ _ _ _ _ Hbw), Hname, lookup_insert_eq.
  rewrite bool_decide_eq_false_2 by discriminate. reflexivity.
Qed.

Lemma declare_twice_fails_witness :
  declare [(Name "x", [1])] [(Name "x", FloatArray)] true true (Some "f")
          (mk_pyfunc "other" ["x"] (Ok tt))
          (<["f" := mk_info (mk_pyfunc "f" ["a"] (Ok tt)) (<["a" := [3; 3]]> ∅)
                            true false (<["a" := ("P", "IntArray")]> ∅)
                            false]> ∅)
  = Raise (AssertionError
             (AlreadyRegistered (registered_name None (mk_pyfunc "f" ["a"] (Ok tt))))).
Proof.
  apply (declare_twice_fails [(Name "a", [3; 3])] [(Name "x", [1])]
           [(Name "a", IntArray)] [(Name "x", FloatArray)]
           true false true true None (Some "f")
           (mk_pyfunc "f" ["a"] (Ok tt)) (mk_pyfunc "other" ["x"] (Ok tt)) ∅).
  - reflexivity.
  - exact I.
  - reflexivity.
Defined.

Lemma convert_types_unsupported (items : list (string * pyclass))
    (acc : gmap string (string * string)) :
  Exists (fun p => ~ is_Ok (get_arg_type (snd p))) items ->
  convert_types items acc = Raise (NameError "tp").
Proof.
  intros Hex. revert acc.
  induction items as [|[varname vartype] items IH]; intros acc.
  - inversion Hex.
  - simpl. destruct (get_arg_type vartype) as [t|e] eqn:Hty; simpl.
    + apply IH. inversion Hex as [? ? Hbad | ? ? Hrest]; subst; [|exact Hrest].
      simpl in Hbad. rewrite Hty in Hbad. exfalso. apply Hbad. exact I.
    + rewrite (unsupported_raises_NameError _ _ Hty). reflexivity.
Qed.

Lemma convert_types_lookup (items : list (string * pyclass))
    (acc m : gmap string (string * string)) :
  NoDup items.*1 ->
  convert_types items acc = Ok m ->
  forall k t,
    m !! k = Some t
    <-> (exists cls, (k, cls) ∈ items /\ get_arg_type cls = Ok t)
        \/ ((k ∉ items.*1) /\ acc !! k = Some t).
Proof.
  revert acc. induction items as [|[varname vartype] items IH];
    intros acc Hnd; cbn [convert_types].
  - intros [= <-] k t. split.
    + intros Hk. right. split; [intros Hin; inversion Hin | exact Hk].
    + intros [(cls & Hin & _) | [_ Hk]]; [inversion Hin | exact Hk].
  - rewrite fmap_cons in Hnd. apply NoDup_cons in Hnd as [Hnotin Hnd].
    destruct (get_arg_type vartype) as [t0|] eqn:Hty; cbn [rbind];
      [|discriminate].
    intros Hconv k t. rewrite (IH _ Hnd Hconv k t). rewrite fmap_cons.
    split.
    + intros [(cls & Hin & Hcls) | [Hk Hacc]].
      * left. exists cls. split; [apply elem_of_cons; right; exact Hin|].
        exact Hcls.
      * destruct (decide (varname = k)) as [-> | Hne].
        -- rewrite lookup_insert_eq in Hacc. injection Hacc as <-.
           left. exists vartype. split; [apply elem_of_cons; left|];
             [reflexivity | exact Hty].
        -- rewrite lookup_insert_ne in Hacc by exact Hne.
           right. split; [|exact Hacc].
           intros Hin. apply elem_of_cons in Hin as [-> | Hin]; contradiction.
    + intros [(cls & Hin & Hcls) | [Hk Hacc]].
      * apply elem_of_cons in Hin as [[= -> ->] | Hin].
        -- right. split; [exact Hnotin|].
           rewrite lookup_insert_eq. congruence.
        -- left. exists cls. split; assumption.
      * right. split.
        -- intros Hin. apply Hk, elem_of_cons. right. exact Hin.
        -- rewrite lookup_insert_ne; [exact Hacc|].
           intros ->. apply Hk, elem_of_cons. left. reflexivity.
Qed.

(** X6. A type outside the table is refused at declaration, before the
    registry is looked at: when the two mappings simplify and the flags
    agree, one variable whose class [get_arg_type] refuses makes the
    declaration end in the [NameError] of line 132. *)
Theorem declare_unsupported_type (shapes : list (names_key * list Z))
    (tys : list (names_key * pyclass)) (o c : bool) (name : option string)
    (f : pyfunc) (reg : gmap string info) (bs : gmap string (list Z))
    (ts : gmap string pyclass) (varname : string) (cls : pyclass) :
  _simplify shapes = Ok bs ->
  _simplify tys = Ok ts ->
  o || negb c = true ->
  ts !! varname = Some cls ->
  ~ is_Ok (get_arg_type cls) ->
  declare shapes tys o c name f reg = Raise (NameError "tp").
Proof.
  intros Hbs Hts Hconf Hvar Hbad. unfold declare, blockwise.
  rewrite Hbs, Hts. simpl. rewrite Hconf. simpl.
  rewrite convert_types_unsupported; [reflexivity|].
  apply Exists_exists. exists (varname, cls).
  split; [apply elem_of_map_to_list; exact Hvar | exact Hbad].
Qed.

Lemma declare_unsupported_type_witness :
  declare [(Name "a", [3; 3])] [(Name "a", IntArray); (Name "n", py_str)]
          true false None (mk_pyfunc "f" ["a"; "n"] (Ok tt)) ∅
  = Raise (NameError "tp").
Proof.
  apply (declare_unsupported_type
           [(Name "a", [3; 3])] [(Name "a", IntArray); (Name "n", py_str)]
           true false None (mk_pyfunc "f" ["a"; "n"] (Ok tt)) ∅
           (<["a" := [3; 3]]> ∅) (<["n" := py_str]> (<["a" := IntArray]> ∅))
           "n" py_str).
  - reflexivity.
  - reflexivity.
  - reflexivity.
  - reflexivity.
  - intros H. exact H.
Defined.

(** X7. The entry of a declared function types exactly the variables of the
    [types] mapping: a variable is bound to a (code, name) pair in the entry
    exactly when the mapping gives it a class that [get_arg_type] maps to
    that pair. *)
Theorem declared_types_lookup (shapes : list (names_key * list Z))
    (tys : list (names_key * pyclass)) (o c : bool) (name : option string)
    (f : pyfunc) (reg reg' : gmap string info) (ts : gmap string pyclass)
    (i : info) (varname : string) (t : string * string) :
  declare shapes tys o c name f reg = Ok reg' ->
  _simplify tys = Ok ts ->
  reg' !! registered_name name f = Some i ->
  types i !! varname = Some t
  <-> exists cls, ts !! varname = Some cls /\ get_arg_type cls = Ok t.
Proof.
  intros Hdecl Hts Hentry.
  destruct (declare_Ok_inv _ _ _ _ _ _ _ _ Hdecl)
    as (bs & ts' & converted & _ & Hts' & _ & Hconv & _ & ->).
  rewrite Hts in Hts'. injection Hts' as <-.
  rewrite lookup_insert_eq in Hentry. injection Hentry as <-. simpl.
  rewrite (convert_types_lookup _ _ _ (NoDup_fst_map_to_list ts) Hconv).
  split.
  - intros [(cls & Hin & Hcls) | [_ Hempty]].
    + exists cls. split; [apply elem_of_map_to_list; exact Hin | exact Hcls].
    + rewrite lookup_empty in Hempty. discriminate.
  - intros (cls & Hin & Hcls). left. exists cls.
    split; [apply elem_of_map_to_list; exact Hin | exact Hcls].
Qed.

Lemma declared_types_lookup_witness :
  types (mk_info (mk_pyfunc "f" ["a"; "n"] (Ok tt)) (<["a" := [3; 3]]> ∅) true false
                 (<["n" := ("i", "int")]> (<["a" := ("P", "IntArray")]> ∅))
                 false) !! "n" = Some ("i", "int")
  <-> exists cls,
        (<["n" := py_bool]> (<["a" := IntArray]> ∅) : gmap string pyclass)
        !! "n" = Some cls
        /\ get_arg_type cls = Ok ("i", "int").
Proof.
  apply (declared_types_lookup
           [(Name "a", [3; 3])] [(Name "a", IntArray); (Name "n", py_bool)]
           true false None (mk_pyfunc "f" ["a"; "n"] (Ok tt)) ∅
           (<["f" := mk_info (mk_pyfunc "f" ["a"; "n"] (Ok tt)) (<["a" := [3; 3]]> ∅)
                             true false
                             (<["n" := ("i", "int")]>
                                (<["a" := ("P", "IntArray")]> ∅))
                             false]> ∅)).
  - reflexivity.
  - reflexivity.
  - reflexivity.
Defined.

(** X8. A declared function cannot be called before [compile_gpu_code]: the
    entry a declaration adds makes [_call_blockwise] fail with the assertion
    of line 49, and the device is not touched. *)
Theorem call_before_compile (shapes : list (names_key * list Z))
    (tys : list (names_key * pyclass)) (o c : bool) (name : option string)
    (f : pyfunc) (reg reg' : gmap string info) (i : info)
    (args : list pyarg) (d : device) :
  declare shapes tys o c name f reg = Ok reg' ->
  reg' !! registered_name name f = Some i ->
  _call_blockwise i args d
  = (Raise (AssertionError CompileBeforeExecuting), d).
Proof.
  intros Hdecl Hentry.
  destruct (declare_Ok_inv _ _ _ _ _ _ _ _ Hdecl)
    as (bs & ts & converted & _ & _ & _ & _ & _ & ->).
  rewrite lookup_insert_eq in Hentry. injection Hentry as <-.
  reflexivity.
Qed.

Lemma call_before_compile_witness :
  _call_blockwise
    (mk_info (mk_pyfunc "f" ["a"] (Ok tt)) (<["a" := [3; 3]]> ∅) true false
             (<["a" := ("P", "IntArray")]> ∅) false)
    [NdArray (mk_ndarray [6; 6] 4)] (mk_device 0 [])
  = (Raise (AssertionError CompileBeforeExecuting), mk_device 0 []).
Proof.
  apply (call_before_compile [(Name "a", [3; 3])] [(Name "a", IntArray)]
           true false None (mk_pyfunc "f" ["a"] (Ok tt)) ∅
           (<["f" := mk_info (mk_pyfunc "f" ["a"] (Ok tt)) (<["a" := [3; 3]]> ∅)
                             true false (<["a" := ("P", "IntArray")]> ∅)
                             false]> ∅)).
  - reflexivity.
  - reflexivity.
Defined.

(** ** Compilation *)

Lemma join_codes_Found_iff (ts : gmap string (string * string))
    (argnames : list string) :
  (exists codes, join_codes ts argnames = Found codes)
  <-> Forall (fun arg => is_Some (ts !! arg)) argnames.
Proof.
  induction argnames as [|arg argnames IH]; simpl.
  - split; [constructor | eauto].
  - rewrite Forall_cons, <- IH. destruct (ts !! arg) as [t|] eqn:Harg.
    + split.
      * intros [codes Hc]. split; [eauto|].
        destruct (join_codes ts argnames); [eauto | discriminate].
      * intros [_ [codes ->]]. eauto.
    + split; [intros [? ?]; discriminate|].
      intros [[? ?] _]. discriminate.
Qed.

Lemma join_codes_KeyError (ts : gmap string (string * string))
    (argnames : list string) (key : string) :
  join_codes ts argnames = KeyError key ->
  key ∈ argnames /\ ts !! key = None.
Proof.
  induction argnames as [|arg argnames IH]; simpl; [discriminate|].
  destruct (ts !! arg) as [t|] eqn:Harg.
  - destruct (join_codes ts argnames); [discriminate|].
    intros [= ->]. destruct (IH eq_refl) as [Hin Hnone].
    split; [apply elem_of_cons; right; exact Hin | exact Hnone].
  - intros [= <-]. split; [apply elem_of_cons; left; reflexivity | exact Harg].
Qed.

Lemma argtypes_Found_iff (i : info) :
  (exists format, argtypes i = Found format)
  <-> Forall (fun arg => is_Some (types i !! arg)) (func_args (func i)).
Proof.
  rewrite <- join_codes_Found_iff. unfold argtypes.
  destruct (join_codes _ _); split; intros [? ?]; eauto; discriminate.
Qed.

Lemma bind_gpufuncs_lookup (items : list (string * info))
    (acc acc' : gmap string info) :
  NoDup items.*1 ->
  bind_gpufuncs items acc = (Found tt, acc') ->
  Forall (fun p => exists format, argtypes (snd p) = Found format) items
  /\ forall k,
       acc' !! k
       = match (list_to_map items : gmap string info) !! k with
         | Some i => Some (set_gpufunc i)
         | None => acc !! k
         end.
Proof.
  revert acc. induction items as [|[name i] items IH]; intros acc Hnd;
    cbn [bind_gpufuncs].
  - intros [= <-]. split; [constructor | intros k; reflexivity].
  - rewrite fmap_cons in Hnd. apply NoDup_cons in Hnd as [Hnotin Hnd].
    destruct (argtypes i) as [format|] eqn:Hfmt; [|discriminate].
    intros Hrest. destruct (IH _ Hnd Hrest) as [Hall Hlook].
    split; [constructor; [simpl; eauto | exact Hall]|].
    intros k. rewrite Hlook. cbn [list_to_map foldr]. simpl.
    destruct (decide (name = k)) as [-> | Hne].
    + rewrite (not_elem_of_list_to_map_1 _ _ Hnotin).
      rewrite !lookup_insert_eq. reflexivity.
    + rewrite !(lookup_insert_ne _ name k) by exact Hne. reflexivity.
Qed.

Lemma bind_gpufuncs_total (items : list (string * info))
    (acc : gmap string info) :
  Forall (fun p => exists format, argtypes (snd p) = Found format) items ->
  exists acc', bind_gpufuncs items acc = (Found tt, acc').
Proof.
  intros Hall. revert acc.
  induction Hall as [|[name i] items [format Hfmt] _ IH]; intros acc;
    cbn [bind_gpufuncs]; [eauto|].
  simpl in Hfmt. rewrite Hfmt. apply IH.
Qed.

Lemma bind_gpufuncs_KeyError (items : list (string * info))
    (acc acc' : gmap string info) (key : string) :
  bind_gpufuncs items acc = (KeyError key, acc') ->
  exists name i, (name, i) ∈ items /\ argtypes i = KeyError key.
Proof.
  revert acc. induction items as [|[name i] items IH]; intros acc;
    cbn [bind_gpufuncs]; [discriminate|].
  destruct (argtypes i) as [format|key'] eqn:Hfmt.
  - intros Hrest. destruct (IH _ Hrest) as (n & j & Hin & Hj).
    exists n, j. split; [apply elem_of_cons; right; exact Hin | exact Hj].
  - intros [= <- _]. exists name, i.
    split; [apply elem_of_cons; left; reflexivity | exact Hfmt].
Qed.

Lemma compile_Ok_fmap (reg reg' : gmap string info) :
  compile_gpu_code reg = (Found tt, reg') -> reg' = set_gpufunc <$> reg.
Proof.
  unfold compile_gpu_code. intros Hrun.
  destruct (bind_gpufuncs_lookup _ _ _ (NoDup_fst_map_to_list reg) Hrun)
    as [_ Hlook].
  apply map_eq. intros k. rewrite Hlook, list_to_map_to_list, lookup_fmap.
  destruct (reg !! k); reflexivity.
Qed.

(** X9. [compile_gpu_code] gets through exactly when every parameter of
    every registered function has a declared type; it then gives every
    entry its [gpufunc] and changes nothing else in the registry. *)
Theorem compile_Ok_iff (reg reg' : gmap string info) :
  compile_gpu_code reg = (Found tt, reg')
  <-> map_Forall (fun _ i => Forall (fun arg => is_Some (types i !! arg))
                                    (func_args (func i))) reg
      /\ reg' = set_gpufunc <$> reg.
Proof.
  split.
  - intros Hrun. split; [|exact (compile_Ok_fmap _ _ Hrun)].
    unfold compile_gpu_code in Hrun.
    destruct (bind_gpufuncs_lookup _ _ _ (NoDup_fst_map_to_list reg) Hrun)
      as [Hall _].
    apply map_Forall_to_list. eapply Forall_impl; [exact Hall|].
    intros [name i] Hfmt. simpl in *. apply argtypes_Found_iff. exact Hfmt.
  - intros [Htyped ->].
    destruct (bind_gpufuncs_total (map_to_list reg) reg) as [acc' Hrun].
    { apply map_Forall_to_list in Htyped.
      eapply Forall_impl; [exact Htyped|].
      intros [name i] Hi. simpl in *. apply argtypes_Found_iff. exact Hi. }
    fold (compile_gpu_code reg) in Hrun.
    rewrite Hrun, (compile_Ok_fmap _ _ Hrun). reflexivity.
Qed.

(** X10. When [compile_gpu_code] fails, it fails with the [KeyError] of a
    parameter name that some registered function takes and that the [types]
    of that function do not declare. *)
Theorem compile_KeyError (reg reg' : gmap string info) (key : string) :
  compile_gpu_code reg = (KeyError key, reg') ->
  exists name i,
    reg !! name = Some i
    /\ key ∈ func_args (func i)
    /\ types i !! key = None.
Proof.
  unfold compile_gpu_code. intros Hrun.
  destruct (bind_gpufuncs_KeyError _ _ _ _ Hrun) as (name & i & Hin & Hfmt).
  exists name, i. split; [apply elem_of_map_to_list; exact Hin|].
  apply join_codes_KeyError. unfold argtypes in Hfmt.
  destruct (join_codes _ _); [discriminate | congruence].
Qed.

Lemma compile_KeyError_witness :
  exists name i,
    (<["f" := mk_info (mk_pyfunc "f" ["a"; "n"] (Ok tt)) (<["a" := [3; 3]]> ∅) true
                      false (<["a" := ("P", "IntArray")]> ∅) false]> ∅
     : gmap string info) !! name = Some i
    /\ "n" ∈ func_args (func i)
    /\ types i !! "n" = None.
Proof.
  apply (compile_KeyError
           (<["f" := mk_info (mk_pyfunc "f" ["a"; "n"] (Ok tt)) (<["a" := [3; 3]]> ∅)
                             true false (<["a" := ("P", "IntArray")]> ∅)
                             false]> ∅)
           (<["f" := mk_info (mk_pyfunc "f" ["a"; "n"] (Ok tt)) (<["a" := [3; 3]]> ∅)
                             true false (<["a" := ("P", "IntArray")]> ∅)
                             false]> ∅)).
  reflexivity.
Defined.

Lemma for_args_set_gpufunc (i : info) (zipped : list (string * pyarg))
    (st : locals) (d : device) :
  for_args (set_gpufunc i) zipped st d = for_args i zipped st d.
Proof.
  revert st d. induction zipped as [|[argname arg] zipped IH]; intros st d;
    simpl; [reflexivity|].
  unfold dbind.
  change (loop_body (set_gpufunc i) st argname arg d)
    with (loop_body i st argname arg d).
  destruct (loop_body i st argname arg d) as [[st'|e] d']; [apply IH|].
  reflexivity.
Qed.

(** X11. Once [compile_gpu_code] has got through, calling a registered
    function no longer trips on the assertion of line 49: the call is the
    call of [_gpu_func] on the entry as it was declared. *)
Theorem call_after_compile (reg reg' : gmap string info) (name : string)
    (i : info) (args : list pyarg) (d : device) :
  compile_gpu_code reg = (Found tt, reg') ->
  reg !! name = Some i ->
  exists i',
    reg' !! name = Some i'
    /\ _call_blockwise i' args d = _gpu_func i args d.
Proof.
  intros Hrun Hentry. apply compile_Ok_fmap in Hrun as ->.
  exists (set_gpufunc i). rewrite lookup_fmap, Hentry.
  split; [reflexivity|].
  unfold _call_blockwise, _gpu_func, dbind, lift. simpl.
  rewrite for_args_set_gpufunc. reflexivity.
Qed.

Lemma call_after_compile_witness :
  exists i',
    (set_gpufunc <$> (<["f" := two_blocks]> ∅ : gmap string info)) !! "f"
    = Some i'
    /\ _call_blockwise i' [Scalar 1; Scalar 2] (mk_device 0 [])
       = _gpu_func two_blocks [Scalar 1; Scalar 2] (mk_device 0 []).
Proof.
  apply (call_after_compile (<["f" := two_blocks]> ∅)
           (set_gpufunc <$> (<["f" := two_blocks]> ∅))).
  - reflexivity.
  - reflexivity.
Defined.

Lemma string_length_append (a b : string) :
  String.length (String.append a b) = (String.length a + String.length b)%nat.
Proof.
  induction a as [|ch a IH]; simpl; [reflexivity | rewrite IH; reflexivity].
Qed.

Lemma get_arg_type_code_length (cls : pyclass) (t : string * string) :
  get_arg_type cls = Ok t -> String.length (fst t) = 1%nat.
Proof.
  destruct cls; intros H; vm_compute in H; try discriminate;
    injection H as <-; reflexivity.
Qed.

Lemma join_codes_length (ts : gmap string (string * string))
    (argnames : list string) (codes : string) :
  map_Forall (fun _ t => String.length (fst t) = 1%nat) ts ->
  join_codes ts argnames = Found codes ->
  String.length codes = length argnames.
Proof.
  intros Hone. revert codes.
  induction argnames as [|arg argnames IH]; intros codes; simpl.
  - intros [= <-]. reflexivity.
  - destruct (ts !! arg) as [t|] eqn:Harg; [|discriminate].
    destruct (join_codes ts argnames) as [rest|]; [|discriminate].
    intros [= <-]. rewrite string_length_append, (IH rest eq_refl).
    rewrite (Hone arg t Harg). reflexivity.
Qed.

Lemma format_of_declared (shapes : list (names_key * list Z))
    (tys : list (names_key * pyclass)) (o c : bool) (name : option string)
    (f : pyfunc) (reg reg' : gmap string info) (i : info) (format : string) :
  declare shapes tys o c name f reg = Ok reg' ->
  reg' !! registered_name name f = Some i ->
  argtypes i = Found format ->
  func i = f
  /\ String.length format = S (length (func_args f))
  /\ exists codes, format = String.append codes "i".
Proof.
  intros Hdecl Hentry Hfmt.
  destruct (declare_Ok_inv _ _ _ _ _ _ _ _ Hdecl)
    as (bs & ts & converted & _ & _ & _ & Hconv & _ & ->).
  rewrite lookup_insert_eq in Hentry. injection Hentry as <-.
  unfold argtypes in Hfmt. simpl in Hfmt.
  destruct (join_codes converted (func_args f)) as [codes|] eqn:Hcodes;
    [|discriminate].
  injection Hfmt as <-. split; [reflexivity|]. split; [|eauto].
  rewrite string_length_append. simpl.
  rewrite (join_codes_length converted (func_args f) codes);
    [lia | | exact Hcodes].
  intros k t Hk.
  apply (convert_types_lookup _ _ _ (NoDup_fst_map_to_list ts) Hconv) in Hk.
  destruct Hk as [(cls & _ & Hcls) | [_ Hempty]].
  - exact (get_arg_type_code_length _ _ Hcls).
  - rewrite lookup_empty in Hempty. discriminate.
Qed.

(** X12. For a declared function, the format string [make_gpu_func] builds
    has one character for each parameter of the function and one more, the
    trailing i of the block count. *)
Theorem declared_format_length (shapes : list (names_key * list Z))
    (tys : list (names_key * pyclass)) (o c : bool) (name : option string)
    (f : pyfunc) (reg reg' : gmap string info) (i : info) (format : string) :
  declare shapes tys o c name f reg = Ok reg' ->
  reg' !! registered_name name f = Some i ->
  argtypes i = Found format ->
  String.length format = S (length (func_args f))
  /\ exists codes, format = String.append codes "i".
Proof.
  intros Hdecl Hentry Hfmt.
  exact (proj2 (format_of_declared _ _ _ _ _ _ _ _ _ _ Hdecl Hentry Hfmt)).
Qed.

Lemma declared_format_length_witness :
  String.length "Pfi" = S (length (func_args (mk_pyfunc "f" ["a"; "x"] (Ok tt))))
  /\ exists codes, "Pfi" = String.append codes "i".
Proof.
  apply (declared_format_length
           [(Name "a", [3; 3])] [(Name "a", IntArray); (Name "x", np_float64)]
           true false None (mk_pyfunc "f" ["a"; "x"] (Ok tt)) ∅
           (<["f" := mk_info (mk_pyfunc "f" ["a"; "x"] (Ok tt)) (<["a" := [3; 3]]> ∅)
                             true false
                             (<["x" := ("f", "float")]>
                                (<["a" := ("P", "IntArray")]> ∅))
                             false]> ∅)
           (mk_info (mk_pyfunc "f" ["a"; "x"] (Ok tt)) (<["a" := [3; 3]]> ∅)
                    true false
                    (<["x" := ("f", "float")]> (<["a" := ("P", "IntArray")]> ∅))
                    false)).
  - reflexivity.
  - reflexivity.
  - reflexivity.
Defined.

(** ** The descriptor [GPUArray.__init__] writes *)

Lemma tuple_mul_repeat {A} (n : Z) (x : A) :
  tuple_mul n [x] = repeat x (Z.to_nat n).
Proof.
  unfold tuple_mul. induction (Z.to_nat n) as [|k IH]; simpl;
    [reflexivity | rewrite IH; reflexivity].
Qed.

Lemma wrap32_small z : - 2 ^ 31 <= z < 2 ^ 31 -> wrap32 z = z.
Proof.
  intros Hz. unfold wrap32. rewrite Z.mod_small by lia. lia.
Qed.

Lemma map_wrap32_small (l : list Z) :
  Forall (fun z => - 2 ^ 31 <= z < 2 ^ 31) l -> map wrap32 l = l.
Proof.
  induction 1 as [|z l Hz _ IH]; simpl; [reflexivity|].
  rewrite wrap32_small, IH by exact Hz. reflexivity.
Qed.

(** X13. For an array of rank at most 4 whose axes and element count fit an
    int32, the last driver call of [GPUArray.__init__] writes, right after
    the data pointer, ten words from which the shape reads back: the axes,
    zeros up to four axes, four zero offsets, the rank and the element
    count. *)
Theorem descriptor_reads_back (data : ndarray) (d : device) :
  (length (nd_shape data) <= 4)%nat ->
  Forall (fun z => - 2 ^ 31 <= z < 2 ^ 31) (nd_shape data) ->
  - 2 ^ 31 <= nd_size data < 2 ^ 31 ->
  exists words,
    last (calls (snd (GPUArray.__init__ data d)))
    = Some (MemcpyHtoD (next_free d + intpsize) words)
    /\ words = nd_shape data ++ repeat 0 (4 - length (nd_shape data))
               ++ [0; 0; 0; 0; nd_ndim data; nd_size data]
    /\ length words = 10%nat
    /\ take (Z.to_nat (nd_ndim data)) words = nd_shape data.
Proof.
  intros Hrank Haxes Hsize. rewrite GPUArray_init_run. simpl.
  eexists. split.
  { rewrite last_app. simpl. reflexivity. }
  assert (Hwords : map wrap32
            ((nd_shape data ++ tuple_mul (4 - nd_ndim data) [0]) ++
             [0; 0; 0; 0; nd_ndim data; nd_size data])
          = nd_shape data ++ repeat 0 (4 - length (nd_shape data))
            ++ [0; 0; 0; 0; nd_ndim data; nd_size data]).
  { rewrite map_wrap32_small.
    - rewrite tuple_mul_repeat, <- app_assoc. unfold nd_ndim.
      do 2 f_equal. f_equal. lia.
    - rewrite tuple_mul_repeat. unfold nd_ndim.
      apply Forall_app. split; [apply Forall_app; split; [exact Haxes|]|].
      + apply Forall_forall. intros z Hz. apply list_elem_of_In in Hz.
        apply repeat_spec in Hz. subst z. lia.
      + repeat constructor; try lia. }
  rewrite Hwords. split; [reflexivity|]. split.
  - rewrite !length_app, repeat_length. simpl. lia.
  - unfold nd_ndim. rewrite Nat2Z.id. apply take_app_length.
Qed.

Lemma descriptor_reads_back_witness :
  exists words,
    last (calls (snd (GPUArray.__init__ (mk_ndarray [2; 3] 4)
                                        (mk_device 0 []))))
    = Some (MemcpyHtoD (0 + intpsize) words)
    /\ words = [2; 3] ++ repeat 0 (4 - 2) ++ [0; 0; 0; 0; 2; 6]
    /\ length words = 10%nat
    /\ take (Z.to_nat 2) words = [2; 3].
Proof.
  apply (descriptor_reads_back (mk_ndarray [2; 3] 4) (mk_device 0 [])).
  - simpl. lia.
  - repeat constructor; simpl; lia.
  - split; vm_compute; [discriminate | reflexivity].
Defined.

(** X14. The descriptor [GPUArray.__init__] writes has the rank or four
    axes, whichever is more, and six more words; written after the data
    pointer it stays within the [GPUArray.size] bytes allocated exactly when
    the rank is at most 4. For an array of higher rank the write runs past
    the allocation. *)
Theorem descriptor_fits_iff_rank_le_4 (data : ndarray) (d : device) :
  exists words,
    last (calls (snd (GPUArray.__init__ data d)))
    = Some (MemcpyHtoD (next_free d + intpsize) words)
    /\ Z.of_nat (length words) = Z.max (nd_ndim data) 4 + 6
    /\ (intpsize + int32size * Z.of_nat (length words) <= GPUArray.size
        <-> nd_ndim data <= 4).
Proof.
  rewrite GPUArray_init_run. simpl. eexists. split.
  { rewrite last_app. simpl. reflexivity. }
  assert (Hlen : Z.of_nat (length (map wrap32
            ((nd_shape data ++ tuple_mul (4 - nd_ndim data) [0]) ++
             [0; 0; 0; 0; nd_ndim data; nd_size data])))
          = Z.max (nd_ndim data) 4 + 6).
  { rewrite length_map, !length_app, tuple_mul_repeat, repeat_length.
    unfold nd_ndim. simpl. lia. }
  split; [exact Hlen|]. rewrite Hlen.
  unfold intpsize, int32size, GPUArray.size, intpsize, int32size. lia.
Qed.

(** ** A call that goes through *)

Lemma copy_back_run (arrays : list GPUArray.t) (d : device) :
  copy_back arrays d
  = (Ok tt, mk_device (next_free d) (calls d ++ downloads arrays)).
Proof.
  revert d. induction arrays as [|g arrays IH]; intros d; simpl.
  - unfold dret. rewrite app_nil_r. destruct d; reflexivity.
  - unfold dbind, GPUArray.copy_to_host, driver.from_device_like.
    rewrite IH. simpl. rewrite <- app_assoc. reflexivity.
Qed.

Lemma gpu_func_run (i : info) (args : list pyarg) (d : device) :
  _gpu_func i args d
  = match for_args i (combine (func_args (func i)) args)
                   (mk_locals [] [] 0) d with
    | (Ok st, d1) =>
        (Ok tt,
         mk_device (next_free d1)
           (calls d1 ++ [SetBlockShape (count st);
                         PreparedCall (kernel_args st ++ [count st])]
            ++ downloads (arrays st)))
    | (Raise e, d1) => (Raise e, d1)
    end.
Proof.
  unfold _gpu_func, dbind.
  destruct (for_args i _ _ d) as [[st|e] d1]; [|reflexivity].
  unfold driver.launch. rewrite copy_back_run. simpl.
  rewrite <- app_assoc. reflexivity.
Qed.

(** One turn of the loop, argument by argument. *)
Lemma loop_body_Scalar (i : info) (st : locals) (argname : string) (v : Z)
    (d : device) :
  loop_body i st argname (Scalar v) d
  = (Ok (mk_locals (kernel_args st ++ [v]) (arrays st) (count st)), d).
Proof. reflexivity. Qed.

Lemma loop_body_DeviceArray (i : info) (st : locals) (argname : string)
    (g : GPUArray.t) (d : device) :
  loop_body i st argname (DeviceArray g) d
  = match update_count i argname g (count st) with
    | Ok count' =>
        (Ok (mk_locals (kernel_args st ++ [GPUArray.pointer g]) (arrays st)
                       count'), d)
    | Raise e => (Raise e, d)
    end.
Proof.
  unfold loop_body, dbind, lift. simpl.
  destruct (update_count i argname g (count st)); reflexivity.
Qed.

Lemma loop_body_NdArray (i : info) (st : locals) (argname : string)
    (a : ndarray) (d : device) :
  let g := GPUArray.mk a (next_free d) (next_free d + GPUArray.size) in
  loop_body i st argname (NdArray a) d
  = match update_count i argname g (count st) with
    | Ok count' =>
        (Ok (mk_locals (kernel_args st ++ [next_free d]) (arrays st ++ [g])
                       count'),
         snd (GPUArray.__init__ a d))
    | Raise e => (Raise e, snd (GPUArray.__init__ a d))
    end.
Proof.
  intros g. unfold loop_body, wrap_ndarray, dbind, lift.
  rewrite GPUArray_init_run. simpl. fold g.
  destruct (update_count i argname g (count st)); reflexivity.
Qed.

(** What the loop has done to its locals and to the device when it gets
    through: one kernel argument per pair, scalars as they are and arrays
    by the pointer of their descriptor; the host arrays collected in order,
    each with the pointers its upload returned; and uploads only. *)
Lemma for_args_Ok (i : info) (zipped : list (string * pyarg))
    (st st' : locals) (d d' : device) :
  for_args i zipped st d = (Ok st', d') ->
  exists new_args new_arrays uploads,
    kernel_args st' = kernel_args st ++ new_args
    /\ arrays st' = arrays st ++ new_arrays
    /\ calls d' = calls d ++ uploads
    /\ Forall is_upload uploads
    /\ Forall2 (fun arg ka =>
                  match arg with
                  | Scalar v => ka = v
                  | DeviceArray g => ka = GPUArray.pointer g
                  | NdArray a => In (MemAlloc GPUArray.size ka) uploads
                  end) (map snd zipped) new_args
    /\ map GPUArray.data new_arrays = host_arrays (map snd zipped)
    /\ Forall (fun g => In (MemAlloc GPUArray.size (GPUArray.pointer g)) uploads
                        /\ In (ToDevice (GPUArray.data g)
                                        (GPUArray.device_data g)) uploads)
              new_arrays.
Proof.
  revert st d. induction zipped as [|[argname arg] zipped IH]; intros st d.
  - simpl. unfold dret. intros [= <- <-].
    exists [], [], []. rewrite !app_nil_r.
    repeat split; constructor.
  - simpl. unfold dbind.
    destruct (loop_body i st argname arg d) as [[st1|e] d1] eqn:Hbody;
      [|discriminate].
    intros Hrest.
    destruct (IH _ _ Hrest)
      as (nargs & narrs & ups & Hka & Har & Hcalls & Hup & Hpos & Hhost & Hptr).
    destruct arg as [a|g|v].
    + pose proof (loop_body_NdArray i st argname a d) as Hrun.
      cbv zeta in Hrun. rewrite Hrun in Hbody. clear Hrun.
      destruct (update_count i argname _ (count st)); [|discriminate].
      injection Hbody as <- <-. simpl in Hka, Har, Hcalls.
      repeat rewrite <- app_assoc in Hcalls.
      rewrite <- app_assoc in Hka. rewrite <- app_assoc in Har.
      simpl in Hcalls, Hka, Har.
      eexists (next_free d :: nargs), (_ :: narrs),
              (_ :: _ :: _ :: _ :: ups).
      split; [exact Hka|]. split; [exact Har|]. split; [exact Hcalls|].
      split; [repeat (constructor; [exact I|]); exact Hup|].
      split.
      { constructor; [left; reflexivity|].
        eapply Forall2_impl; [exact Hpos|].
        intros [a'|g'|v'] ka; simpl; auto 10. }
      split; [simpl; rewrite Hhost; reflexivity|].
      constructor.
      { simpl. split; [left; reflexivity | right; left; reflexivity]. }
      eapply Forall_impl; [exact Hptr|].
      intros g' [H1 H2]. simpl. auto 10.
    + rewrite loop_body_DeviceArray in Hbody.
      destruct (update_count i argname g (count st)); [|discriminate].
      injection Hbody as <- <-. simpl in *.
      exists (GPUArray.pointer g :: nargs), narrs, ups.
      rewrite Hka, <- app_assoc. simpl.
      repeat split; try assumption.
      constructor; [reflexivity | exact Hpos].
    + rewrite loop_body_Scalar in Hbody.
      injection Hbody as <- <-. simpl in *.
      exists (v :: nargs), narrs, ups.
      rewrite Hka, <- app_assoc. simpl.
      repeat split; try assumption.
      constructor; [reflexivity | exact Hpos].
Qed.

(** X15. A call that goes through makes its driver calls in three runs:
    uploads only, then one launch, then the downloads. The launch passes
    one kernel argument for each parameter paired with an argument, in
    order, followed by the block count: a number goes as it is, a device
    array as the pointer of its descriptor, a host array as the pointer of
    the descriptor allocated for it in this call. *)
Theorem call_trace (i : info) (args : list pyarg) (d d' : device) :
  _gpu_func i args d = (Ok tt, d') ->
  exists uploads kernel_args count arrays,
    calls d' = calls d ++ uploads
               ++ [SetBlockShape count; PreparedCall (kernel_args ++ [count])]
               ++ downloads arrays
    /\ Forall is_upload uploads
    /\ Forall2 (fun arg ka =>
                  match arg with
                  | Scalar v => ka = v
                  | DeviceArray g => ka = GPUArray.pointer g
                  | NdArray a => In (MemAlloc GPUArray.size ka) uploads
                  end)
               (map snd (combine (func_args (func i)) args)) kernel_args.
Proof.
  rewrite gpu_func_run.
  destruct (for_args i _ _ d) as [[st|e] d1] eqn:Hloop; [|discriminate].
  intros [= <-]. simpl.
  destruct (for_args_Ok _ _ _ _ _ _ Hloop)
    as (nargs & narrs & ups & Hka & _ & Hcalls & Hup & Hpos & _).
  simpl in Hka. exists ups, nargs, (count st), (arrays st).
  rewrite Hcalls, Hka, <- app_assoc. auto.
Qed.

Lemma call_trace_witness :
  exists uploads kernel_args count arrays,
    calls (snd (_gpu_func two_blocks
                  [NdArray (mk_ndarray [4] 4);
                   DeviceArray (GPUArray.mk (mk_ndarray [4] 4) 64 112)]
                  (mk_device 200 [])))
    = [] ++ uploads
      ++ [SetBlockShape count; PreparedCall (kernel_args ++ [count])]
      ++ downloads arrays
    /\ Forall is_upload uploads
    /\ Forall2 (fun arg ka =>
                  match arg with
                  | Scalar v => ka = v
                  | DeviceArray g => ka = GPUArray.pointer g
                  | NdArray a => In (MemAlloc GPUArray.size ka) uploads
                  end)
               (map snd (combine (func_args (func two_blocks))
                           [NdArray (mk_ndarray [4] 4);
                            DeviceArray (GPUArray.mk (mk_ndarray [4] 4) 64 112)]))
               kernel_args.
Proof.
  apply (call_trace two_blocks
           [NdArray (mk_ndarray [4] 4);
            DeviceArray (GPUArray.mk (mk_ndarray [4] 4) 64 112)]
           (mk_device 200 [])).
  reflexivity.
Defined.

(** X16. A call that goes through copies back the host arrays among its
    paired arguments, all of them, in argument order and nothing else: a
    device array the caller built is not copied back. Each download reads
    from the device pointer that the upload of that array returned in this
    call. *)
Theorem copy_back_host_arrays (i : info) (args : list pyarg) (d d' : device) :
  _gpu_func i args d = (Ok tt, d') ->
  exists uploads launch arrays,
    calls d' = calls d ++ uploads ++ launch ++ downloads arrays
    /\ Forall is_upload uploads
    /\ Forall (fun c => ~ is_upload c /\ forall p a, c <> FromDeviceLike p a)
              launch
    /\ map GPUArray.data arrays
       = host_arrays (map snd (combine (func_args (func i)) args))
    /\ Forall (fun g => In (ToDevice (GPUArray.data g)
                                     (GPUArray.device_data g)) uploads)
              arrays.
Proof.
  rewrite gpu_func_run.
  destruct (for_args i _ _ d) as [[st|e] d1] eqn:Hloop; [|discriminate].
  intros [= <-]. simpl.
  destruct (for_args_Ok _ _ _ _ _ _ Hloop)
    as (nargs & narrs & ups & _ & Har & Hcalls & Hup & _ & Hhost & Hptr).
  simpl in Har. subst narrs.
  exists ups, [SetBlockShape (count st);
               PreparedCall (kernel_args st ++ [count st])], (arrays st).
  rewrite Hcalls, <- app_assoc.
  split; [reflexivity|]. split; [exact Hup|]. split.
  { repeat constructor; simpl; auto; discriminate. }
  split; [exact Hhost|].
  eapply Forall_impl; [exact Hptr|]. intros g [_ H]. exact H.
Qed.

Lemma copy_back_host_arrays_witness :
  exists uploads launch arrays,
    calls (snd (_gpu_func two_blocks
                  [NdArray (mk_ndarray [4] 4);
                   DeviceArray (GPUArray.mk (mk_ndarray [4] 4) 64 112)]
                  (mk_device 200 [])))
    = [] ++ uploads ++ launch ++ downloads arrays
    /\ Forall is_upload uploads
    /\ Forall (fun c => ~ is_upload c /\ forall p a, c <> FromDeviceLike p a)
              launch
    /\ map GPUArray.data arrays
       = host_arrays (map snd (combine (func_args (func two_blocks))
                                 [NdArray (mk_ndarray [4] 4);
                                  DeviceArray
                                    (GPUArray.mk (mk_ndarray [4] 4) 64 112)]))
    /\ Forall (fun g => In (ToDevice (GPUArray.data g)
                                     (GPUArray.device_data g)) uploads)
              arrays.
Proof.
  apply (copy_back_host_arrays two_blocks
           [NdArray (mk_ndarray [4] 4);
            DeviceArray (GPUArray.mk (mk_ndarray [4] 4) 64 112)]
           (mk_device 200 [])).
  reflexivity.
Defined.

Lemma combine_app_ignored {A B} (l : list A) (args extra : list B) :
  (length l <= length args)%nat ->
  combine l (args ++ extra) = combine l args.
Proof.
  revert args. induction l as [|x l IH]; intros [|y args] Hlen; simpl in *;
    try reflexivity; try lia.
  f_equal. apply IH. lia.
Qed.

(** X17. The number of arguments is not checked: what a call is handed
    beyond the parameters of the function is dropped by [zip] without a
    trace, in the result and on the device. *)
Theorem extra_arguments_are_dropped (i : info) (args extra : list pyarg)
    (d : device) :
  (length (func_args (func i)) <= length args)%nat ->
  _gpu_func i (args ++ extra) d = _gpu_func i args d.
Proof.
  intros Hlen. unfold _gpu_func. rewrite combine_app_ignored by exact Hlen.
  reflexivity.
Qed.

Lemma extra_arguments_are_dropped_witness :
  _gpu_func two_blocks
            ([Scalar 1; Scalar 2] ++ [NdArray (mk_ndarray [5] 4)])
            (mk_device 0 [])
  = _gpu_func two_blocks [Scalar 1; Scalar 2] (mk_device 0 []).
Proof.
  apply (extra_arguments_are_dropped two_blocks [Scalar 1; Scalar 2]
           [NdArray (mk_ndarray [5] 4)] (mk_device 0 [])).
  simpl. lia.
Defined.

(** ** The block count of one argument *)

Lemma any_remainder_Raise (pairs : list (Z * Z)) (e : exn) :
  any_remainder pairs = Raise e -> e = ZeroDivisionError.
Proof.
  induction pairs as [|[dim1 dim2] pairs IH]; simpl; [discriminate|].
  destruct (dim2 =? 0); [congruence|].
  destruct (dim1 mod dim2 =? 0); [exact IH | discriminate].
Qed.

Lemma all_ones_odd (shape : list Z) :
  all_ones shape = true ->
  forallb (fun dim => negb (dim mod 2 =? 0)) shape = true.
Proof.
  intros Hones. apply all_ones_Forall in Hones.
  induction Hones as [|dim shape <- _ IH]; simpl; [reflexivity | exact IH].
Qed.

(** X18. Counting the blocks of an argument can fail in three ways only:
    the integer-multiple assertion of line 170, a division by a zero axis of
    the block shape, or numpy refusing to broadcast the two shapes (in the
    sliding-window branch). The parity assertion of line 162 never fails. *)
Theorem blockcount_exceptions (o c : bool) (argname : string)
    (data : ndarray) (shape : list Z) (e : exn) :
  blockcount_of o c argname data shape = Raise e ->
  (e = AssertionError (NotIntegerMultiple argname) /\ o && all_ones shape = false)
  \/ (e = ZeroDivisionError /\ o && all_ones shape = false)
  \/ (e = BroadcastError (length (nd_shape data)) (length shape)
      /\ o = true /\ c = false /\ all_ones shape = true
      /\ length (nd_shape data) <> length shape).
Proof.
  unfold blockcount_of.
  destruct (o && all_ones shape) eqn:Hbranch.
  - apply andb_true_iff in Hbranch as [-> Hones].
    destruct c.
    + rewrite (all_ones_odd _ Hones). discriminate.
    + unfold Numpy.sub, Numpy.sub_scalar. rewrite length_map.
      destruct (Nat.eqb_spec (length (nd_shape data)) (length shape))
        as [Heq | Hne]; [discriminate|].
      destruct (nd_shape data) as [|x [|x' S]];
        destruct shape as [|y [|y' B]]; simpl; try discriminate;
        intros [= <-]; right; right; simpl; auto.
  - destruct (any_remainder _) as [uneven|e0] eqn:Hrem; simpl.
    + destruct uneven; simpl; [intros [= <-]; left; auto|].
      unfold Numpy.floordiv_prod.
      destruct (Numpy.is_int64_array shape); [discriminate|].
      destruct (Numpy.prod shape =? 0); [|discriminate].
      intros [= <-]. right. left. auto.
    + intros [= <-]. right. left.
      split; [exact (any_remainder_Raise _ _ Hrem) | reflexivity].
Qed.

Lemma blockcount_exceptions_witness :
  (BroadcastError 3 2 = AssertionError (NotIntegerMultiple "a")
   /\ true && all_ones [1; 1] = false)
  \/ (BroadcastError 3 2 = ZeroDivisionError /\ true && all_ones [1; 1] = false)
  \/ (BroadcastError 3 2
      = BroadcastError (length (nd_shape (mk_ndarray [4; 5; 6] 4)))
                       (length [1; 1])
      /\ true = true /\ false = false /\ all_ones [1; 1] = true
      /\ length (nd_shape (mk_ndarray [4; 5; 6] 4)) <> length [1; 1]).
Proof.
  apply (blockcount_exceptions true false "a" (mk_ndarray [4; 5; 6] 4) [1; 1]).
  reflexivity.
Defined.

(** X19. With [center_as_origin] (and so [overlapping]) and a block of one
    element per axis, every element of the array is a block: the block count
    is the element count, whatever the rank of the array. *)
Theorem center_as_origin_count (argname : string) (data : ndarray)
    (shape : list Z) :
  all_ones shape = true ->
  blockcount_of true true argname data shape = Ok (nd_size data).
Proof.
  intros Hones. unfold blockcount_of. rewrite Hones. simpl.
  rewrite (all_ones_odd _ Hones). reflexivity.
Qed.

Lemma center_as_origin_count_witness :
  blockcount_of true true "a" (mk_ndarray [4; 5] 4) [1; 1]
  = Ok (nd_size (mk_ndarray [4; 5] 4)).
Proof.
  apply (center_as_origin_count "a" (mk_ndarray [4; 5] 4) [1; 1]).
  reflexivity.
Defined.

Lemma product_ones (shape : list Z) : Forall (eq 1) shape -> product shape = 1.
Proof.
  induction 1 as [|b shape <- _ IH]; simpl; [reflexivity | lia].
Qed.

Lemma remainders_ones (S shape : list Z) :
  Forall (eq 1) shape ->
  forallb (fun p => fst p mod snd p =? 0) (combine S shape) = true.
Proof.
  intros Hones. revert S.
  induction Hones as [|b shape <- _ IH]; intros [|s S]; simpl;
    try reflexivity.
  rewrite Z.mod_1_r. simpl. apply IH.
Qed.

Lemma valid_shape_size (S : list Z) :
  valid_shape S -> 0 <= product S < 2 ^ 63.
Proof.
  intros [HS Hsize]. split; [|exact Hsize].
  apply product_nonneg. eapply Forall_impl; [exact HS|]. simpl; lia.
Qed.

(** X20. With a block of one element per axis, of the rank of the array,
    the flags make no difference: overlapping or not, anchored at the centre
    or not, the block count is the element count of the array. *)
Theorem unit_blocks_count_elements (o c : bool) (argname : string)
    (data : ndarray) (shape : list Z) :
  valid_shape (nd_shape data) ->
  length (nd_shape data) = length shape ->
  all_ones shape = true ->
  blockcount_of o c argname data shape = Ok (nd_size data).
Proof.
  intros Hvalid Hlen Hones.
  pose proof (all_ones_Forall _ Hones) as Hall.
  pose proof (valid_shape_size _ Hvalid) as Hsize.
  destruct o.
  - unfold blockcount_of. rewrite Hones. simpl.
    destruct c; [rewrite (all_ones_odd _ Hones); reflexivity|].
    unfold Numpy.sub. unfold Numpy.sub_scalar at 1.
    rewrite length_map, Hlen, Nat.eqb_refl. simpl.
    rewrite zip_sub_ones by (try assumption; apply Hvalid).
    rewrite prod_valid by apply Hvalid. reflexivity.
  - unfold blockcount_of. simpl.
    rewrite any_remainder_nonzero.
    + rewrite remainders_ones by exact Hall. simpl.
      rewrite floordiv_prod_positive.
      * rewrite (product_ones _ Hall), Z.div_1_r. reflexivity.
      * exact Hsize.
      * eapply Forall_impl; [exact Hall|]. intros b <-. lia.
      * right. rewrite (product_ones _ Hall). lia.
    + apply combine_snd_nonzero. eapply Forall_impl; [exact Hall|].
      intros b <-. discriminate.
Qed.

Lemma unit_blocks_count_elements_witness :
  blockcount_of false false "a" (mk_ndarray [4; 5] 4) [1; 1]
  = Ok (nd_size (mk_ndarray [4; 5] 4)).
Proof.
  apply (unit_blocks_count_elements false false "a" (mk_ndarray [4; 5] 4)
           [1; 1]).
  - split; [repeat constructor; simpl; lia | reflexivity].
  - reflexivity.
  - reflexivity.
Defined.

Lemma remainders_self (S : list Z) :
  forallb (fun p => fst p mod snd p =? 0) (combine S S) = true.
Proof.
  induction S as [|s S IH]; simpl; [reflexivity|].
  rewrite Z_mod_same_full. simpl. exact IH.
Qed.

(** X21. A block that is the whole array makes one block: for an array
    without an empty axis and its own shape as block shape, the block count
    is 1 under every combination of the flags. *)
Theorem whole_array_is_one_block (o c : bool) (argname : string)
    (data : ndarray) :
  valid_shape (nd_shape data) ->
  Forall (fun d => 0 < d) (nd_shape data) ->
  blockcount_of o c argname data (nd_shape data) = Ok 1.
Proof.
  intros Hvalid Hpos.
  pose proof (valid_shape_size _ Hvalid) as Hsize.
  pose proof (product_pos _ Hpos) as Hprod.
  unfold blockcount_of.
  destruct (o && all_ones (nd_shape data)) eqn:Hbranch.
  - apply andb_true_iff in Hbranch as [_ Hones].
    pose proof (all_ones_Forall _ Hones) as Hall.
    destruct c.
    + rewrite (all_ones_odd _ Hones). simpl. unfold nd_size.
      rewrite (product_ones _ Hall). reflexivity.
    + unfold Numpy.sub. unfold Numpy.sub_scalar at 1.
      rewrite length_map, Nat.eqb_refl. simpl.
      rewrite zip_sub_ones by (try reflexivity; try assumption; apply Hvalid).
      rewrite prod_valid by apply Hvalid.
      rewrite (product_ones _ Hall). reflexivity.
  - rewrite any_remainder_nonzero.
    + rewrite remainders_self. simpl. unfold nd_size.
      rewrite floordiv_prod_positive by (try assumption; right; lia).
      rewrite Z_div_same_full by lia. reflexivity.
    + apply combine_snd_nonzero. eapply Forall_impl; [exact Hpos|].
      simpl; lia.
Qed.

Lemma whole_array_is_one_block_witness :
  blockcount_of false false "a" (mk_ndarray [4; 5] 4)
                (nd_shape (mk_ndarray [4; 5] 4)) = Ok 1.
Proof.
  apply (whole_array_is_one_block false false "a" (mk_ndarray [4; 5] 4)).
  - split; [repeat constructor; simpl; lia | reflexivity].
  - repeat constructor.
Defined.

Lemma all_ones_no_zero (pre rest : list Z) :
  all_ones (pre ++ 0 :: rest) = false.
Proof.
  destruct (all_ones (pre ++ 0 :: rest)) eqn:Hones; [|reflexivity].
  apply all_ones_Forall in Hones.
  apply Forall_app in Hones as [_ Hones].
  inversion Hones; discriminate.
Qed.

(** X22. A zero axis in a block shape is a division by zero: when the axes
    before it divide their array axes and the array has an axis at that
    position, counting the blocks raises [ZeroDivisionError], under every
    combination of the flags. *)
Theorem zero_block_axis (o c : bool) (argname : string) (data : ndarray)
    (shape pre_s rest_s pre_b rest_b : list Z) (s : Z) :
  nd_shape data = pre_s ++ s :: rest_s ->
  shape = pre_b ++ 0 :: rest_b ->
  Forall2 (fun s b => b <> 0 /\ s mod b = 0) pre_s pre_b ->
  blockcount_of o c argname data shape = Raise ZeroDivisionError.
Proof.
  intros HS -> Hpre. unfold blockcount_of.
  rewrite all_ones_no_zero, andb_false_r, HS.
  assert (Hrem : any_remainder (combine (pre_s ++ s :: rest_s)
                                        (pre_b ++ 0 :: rest_b))
                 = Raise ZeroDivisionError).
  { clear HS. induction Hpre as [|s0 b0 pre_s pre_b [Hb Hmod] _ IH]; simpl.
    - reflexivity.
    - destruct (Z.eqb_spec b0 0); [contradiction|].
      rewrite Hmod. simpl. exact IH. }
  rewrite Hrem. reflexivity.
Qed.

Lemma zero_block_axis_witness :
  blockcount_of true false "a" (mk_ndarray [4; 6] 4) [2; 0]
  = Raise ZeroDivisionError.
Proof.
  apply (zero_block_axis true false "a" (mk_ndarray [4; 6] 4) [2; 0]
           [4] [] [2] [] 6).
  - reflexivity.
  - reflexivity.
  - repeat constructor. discriminate.
Defined.

(** ** One block count for all arguments *)

Lemma update_count_Ok_inv (i : info) (argname : string) (g : GPUArray.t)
    (c0 c1 : Z) :
  update_count i argname g c0 = Ok c1 ->
  (c1 = c0
   /\ (blockshapes i !! argname = None \/ blockshapes i !! argname = Some []))
  \/ (exists shape,
        blockshapes i !! argname = Some shape /\ shape <> []
        /\ blockcount_of (overlapping i) (center_as_origin i) argname
                         (GPUArray.data g) shape = Ok c1
        /\ (c0 = 0 \/ c0 = c1)).
Proof.
  unfold update_count.
  destruct (blockshapes i !! argname) as [[|b shape]|] eqn:Hshape.
  - intros [= <-]. auto.
  - destruct (blockcount_of _ _ _ _ _) as [blockcount|] eqn:Hbc; simpl;
      [|discriminate].
    destruct (Z.eqb_spec c0 0) as [Hz | Hnz]; simpl.
    + intros [= <-]. right. exists (b :: shape). auto.
    + unfold py_assert. destruct (Z.eqb_spec c0 blockcount); simpl;
        [|discriminate].
      intros [= <-]. right. exists (b :: shape). auto.
  - intros [= <-]. auto.
Qed.

Lemma loop_body_Ok_count (i : info) (st st1 : locals) (argname : string)
    (arg : pyarg) (d d1 : device) :
  loop_body i st argname arg d = (Ok st1, d1) ->
  match arg_data arg with
  | None => count st1 = count st
  | Some data =>
      (count st1 = count st
       /\ (blockshapes i !! argname = None
           \/ blockshapes i !! argname = Some []))
      \/ (exists shape,
            blockshapes i !! argname = Some shape /\ shape <> []
            /\ blockcount_of (overlapping i) (center_as_origin i) argname
                             data shape = Ok (count st1)
            /\ (count st = 0 \/ count st = count st1))
  end.
Proof.
  destruct arg as [a|g|v]; simpl.
  - pose proof (loop_body_NdArray i st argname a d) as Hrun.
    cbv zeta in Hrun. rewrite Hrun.
    destruct (update_count i argname _ (count st)) as [c1|] eqn:Hupd;
      [|discriminate].
    intros [= <- _]. simpl. exact (update_count_Ok_inv _ _ _ _ _ Hupd).
  - rewrite loop_body_DeviceArray.
    destruct (update_count i argname g (count st)) as [c1|] eqn:Hupd;
      [|discriminate].
    intros [= <- _]. simpl. exact (update_count_Ok_inv _ _ _ _ _ Hupd).
  - rewrite loop_body_Scalar. intros [= <- _]. reflexivity.
Qed.

Lemma implies_count_cons (i : info) (argname : string) (arg : pyarg)
    (zipped : list (string * pyarg)) (b : Z) :
  implies_count i ((argname, arg) :: zipped) b
  <-> (exists data shape,
         arg_data arg = Some data
         /\ blockshapes i !! argname = Some shape /\ shape <> []
         /\ blockcount_of (overlapping i) (center_as_origin i) argname data
                          shape = Ok b)
      \/ implies_count i zipped b.
Proof.
  unfold implies_count. split.
  - intros (an & a & data & shape & Hin & Hrest).
    apply elem_of_cons in Hin as [[= -> ->] | Hin].
    + left. exists data, shape. exact Hrest.
    + right. exists an, a, data, shape. split; assumption.
  - intros [(data & shape & Hrest) | (an & a & data & shape & Hin & Hrest)].
    + exists argname, arg, data, shape.
      split; [apply elem_of_cons; left; reflexivity | exact Hrest].
    + exists an, a, data, shape.
      split; [apply elem_of_cons; right; exact Hin | exact Hrest].
Qed.

(** The count the loop ends with, when no block count met is zero: a count
    that was set stays, and every block count met equals it. *)
Lemma for_args_counts (i : info) (zipped : list (string * pyarg))
    (st st' : locals) (d d' : device) :
  for_args i zipped st d = (Ok st', d') ->
  (forall b, implies_count i zipped b -> b <> 0) ->
  (count st <> 0 -> count st' = count st)
  /\ (forall b, implies_count i zipped b -> b = count st').
Proof.
  revert st d. induction zipped as [|[argname arg] zipped IH];
    intros st d Hrun Hnz.
  - simpl in Hrun. unfold dret in Hrun. injection Hrun as <- <-.
    split; [reflexivity|].
    intros b (an & a & data & shape & Hin & _). inversion Hin.
  - simpl in Hrun. unfold dbind in Hrun.
    destruct (loop_body i st argname arg d) as [[st1|e] d1] eqn:Hbody;
      [|discriminate].
    assert (Hnz' : forall b, implies_count i zipped b -> b <> 0).
    { intros b Hb. apply Hnz, implies_count_cons. right. exact Hb. }
    destruct (IH _ _ Hrun Hnz') as [Hkeep Hall].
    pose proof (loop_body_Ok_count _ _ _ _ _ _ _ Hbody) as Hhead.
    destruct (arg_data arg) as [data|] eqn:Hdata.
    + destruct Hhead as [[Hsame Hnoshape]
                        | (shape & Hshape & Hne & Hbc & Hprev)].
      * split; [intros Hst; rewrite <- Hsame; apply Hkeep; lia|].
        intros b Hb. apply implies_count_cons in Hb
          as [(data' & shape' & _ & Hshape' & Hne' & _) | Hb];
          [|exact (Hall b Hb)].
        destruct Hnoshape as [Hnone | Hempty]; congruence.
      * assert (Hb1 : count st1 <> 0).
        { apply Hnz, implies_count_cons. left. exists data, shape. auto. }
        specialize (Hkeep Hb1). split; [intros Hst; lia|].
        intros b Hb. apply implies_count_cons in Hb
          as [(data' & shape' & Hdata' & Hshape' & _ & Hbc') | Hb];
          [|exact (Hall b Hb)].
        rewrite Hshape in Hshape'. injection Hshape' as <-.
        rewrite Hdata in Hdata'. injection Hdata' as <-.
        rewrite Hbc in Hbc'. injection Hbc' as <-.
        symmetry. exact Hkeep.
    + split; [intros Hst; rewrite <- Hhead; apply Hkeep; lia|].
      intros b Hb. apply implies_count_cons in Hb
        as [(data' & shape' & Hdata' & _) | Hb]; [congruence|].
      exact (Hall b Hb).
Qed.

(** X23. When a call goes through and no block-shaped argument has a block
    count of zero, all block-shaped arguments have one and the same block
    count, and it is the count the kernel is launched with and handed as its
    last argument. *)
Theorem block_counts_agree (i : info) (args : list pyarg) (d d' : device)
    (b : Z) :
  _gpu_func i args d = (Ok tt, d') ->
  (forall b', implies_count i (combine (func_args (func i)) args) b' ->
              b' <> 0) ->
  implies_count i (combine (func_args (func i)) args) b ->
  (forall b', implies_count i (combine (func_args (func i)) args) b' ->
              b' = b)
  /\ exists uploads kernel_args arrays,
       calls d' = calls d ++ uploads
                  ++ [SetBlockShape b; PreparedCall (kernel_args ++ [b])]
                  ++ downloads arrays.
Proof.
  rewrite gpu_func_run.
  destruct (for_args i _ _ d) as [[st|e] d1] eqn:Hloop; [|discriminate].
  intros [= <-] Hnz Hb.
  destruct (for_args_counts _ _ _ _ _ _ Hloop Hnz) as [_ Hall].
  rewrite (Hall b Hb). split.
  - intros b' Hb'. exact (Hall b' Hb').
  - destruct (for_args_Ok _ _ _ _ _ _ Hloop)
      as (nargs & narrs & ups & _ & _ & Hcalls & _).
    exists ups, (kernel_args st), (arrays st). simpl.
    rewrite Hcalls, <- app_assoc. reflexivity.
Qed.

Lemma block_counts_agree_witness :
  (forall b', implies_count two_blocks
                (combine (func_args (func two_blocks))
                   [NdArray (mk_ndarray [4] 4);
                    DeviceArray (GPUArray.mk (mk_ndarray [4] 4) 64 112)]) b' ->
              b' = 2)
  /\ exists uploads kernel_args arrays,
       calls (snd (_gpu_func two_blocks
                     [NdArray (mk_ndarray [4] 4);
                      DeviceArray (GPUArray.mk (mk_ndarray [4] 4) 64 112)]
                     (mk_device 200 [])))
       = [] ++ uploads
         ++ [SetBlockShape 2; PreparedCall (kernel_args ++ [2])]
         ++ downloads arrays.
Proof.
  assert (Hcounts : forall b',
            implies_count two_blocks
              (combine (func_args (func two_blocks))
                 [NdArray (mk_ndarray [4] 4);
                  DeviceArray (GPUArray.mk (mk_ndarray [4] 4) 64 112)]) b' ->
            b' = 2).
  { intros b' (an & a & data & shape & Hin & Hdata & Hshape & _ & Hbc).
    simpl in Hin.
    apply elem_of_cons in Hin as [[= -> ->] | Hin];
      [|apply elem_of_cons in Hin as [[= -> ->] | Hin]; [|inversion Hin]];
      injection Hdata as <-; vm_compute in Hshape; injection Hshape as <-;
      vm_compute in Hbc; injection Hbc as <-; reflexivity. }
  apply (block_counts_agree two_blocks
           [NdArray (mk_ndarray [4] 4);
            DeviceArray (GPUArray.mk (mk_ndarray [4] 4) 64 112)]
           (mk_device 200 [])).
  - reflexivity.
  - intros b' Hb'. rewrite (Hcounts b' Hb'). discriminate.
  - exists "a", (NdArray (mk_ndarray [4] 4)), (mk_ndarray [4] 4), [2].
    split; [apply elem_of_cons; left; reflexivity|].
    repeat split; try reflexivity. discriminate.
Defined.

Lemma for_args_unshaped (i : info) (zipped : list (string * pyarg))
    (st : locals) (d : device) :
  Forall (fun p => arg_data (snd p) = None
                   \/ blockshapes i !! fst p = None
                   \/ blockshapes i !! fst p = Some []) zipped ->
  exists st' d', for_args i zipped st d = (Ok st', d') /\ count st' = count st.
Proof.
  intros Hun. revert st d.
  induction Hun as [|[argname arg] zipped Hhead _ IH]; intros st d.
  - exists st, d. split; reflexivity.
  - simpl in Hhead. simpl. unfold dbind.
    assert (Hupd : forall g, arg_data arg <> None ->
                     update_count i argname g (count st) = Ok (count st)).
    { intros g Harr. unfold update_count.
      destruct Hhead as [Hnone | [-> | ->]]; [contradiction | | ];
        reflexivity. }
    destruct arg as [a|g|v].
    + pose proof (loop_body_NdArray i st argname a d) as Hrun.
      cbv zeta in Hrun. rewrite Hrun, Hupd by discriminate.
      destruct (IH (mk_locals (kernel_args st ++ [next_free d])
                      (arrays st ++ [GPUArray.mk a (next_free d)
                                       (next_free d + GPUArray.size)])
                      (count st))
                   (snd (GPUArray.__init__ a d))) as (st' & d' & Hrest & Hc).
      exists st', d'. split; [exact Hrest | exact Hc].
    + rewrite loop_body_DeviceArray, Hupd by discriminate.
      destruct (IH (mk_locals (kernel_args st ++ [GPUArray.pointer g])
                      (arrays st) (count st)) d) as (st' & d' & Hrest & Hc).
      exists st', d'. split; [exact Hrest | exact Hc].
    + rewrite loop_body_Scalar.
      destruct (IH (mk_locals (kernel_args st ++ [v]) (arrays st) (count st))
                   d) as (st' & d' & Hrest & Hc).
      exists st', d'. split; [exact Hrest | exact Hc].
Qed.

(** X24. A call in which no paired argument is an array with a non-empty
    block shape (numbers, arrays of parameters without a block shape)
    always goes through, and launches the kernel for a block count of 0. *)
Theorem no_block_shaped_argument (i : info) (args : list pyarg) (d : device) :
  Forall (fun p => arg_data (snd p) = None
                   \/ blockshapes i !! fst p = None
                   \/ blockshapes i !! fst p = Some [])
         (combine (func_args (func i)) args) ->
  exists d' uploads kernel_args arrays,
    _gpu_func i args d = (Ok tt, d')
    /\ calls d' = calls d ++ uploads
                  ++ [SetBlockShape 0; PreparedCall (kernel_args ++ [0])]
                  ++ downloads arrays.
Proof.
  intros Hun. rewrite gpu_func_run.
  destruct (for_args_unshaped i _ (mk_locals [] [] 0) d Hun)
    as (st & d1 & Hloop & Hcount).
  rewrite Hloop. simpl in Hcount. rewrite Hcount.
  destruct (for_args_Ok _ _ _ _ _ _ Hloop)
    as (nargs & narrs & ups & _ & _ & Hcalls & _).
  eexists. exists ups, (kernel_args st), (arrays st).
  split; [reflexivity|]. simpl. rewrite Hcalls, <- app_assoc. reflexivity.
Qed.

Lemma no_block_shaped_argument_witness :
  exists d' uploads kernel_args arrays,
    _gpu_func (mk_info (mk_pyfunc "f" ["a"; "n"] (Ok tt)) ∅ false false ∅ true)
              [NdArray (mk_ndarray [4] 4); Scalar 7] (mk_device 0 [])
    = (Ok tt, d')
    /\ calls d' = [] ++ uploads
                  ++ [SetBlockShape 0; PreparedCall (kernel_args ++ [0])]
                  ++ downloads arrays.
Proof.
  apply (no_block_shaped_argument
           (mk_info (mk_pyfunc "f" ["a"; "n"] (Ok tt)) ∅ false false ∅ true)
           [NdArray (mk_ndarray [4] 4); Scalar 7] (mk_device 0 [])).
  simpl. constructor; [right; left; reflexivity|].
  constructor; [left; reflexivity|]. constructor.
Defined.

(** ** Format and values *)

(** X25. For a declared function, a call that goes through hands
    [prepared_call] as many values as the format string of the function has
    characters exactly when the call has at least as many arguments as the
    function has parameters; a call with fewer arguments hands over fewer
    values than the format expects. *)
Theorem kernel_arity (shapes : list (names_key * list Z))
    (tys : list (names_key * pyclass)) (o c : bool) (name : option string)
    (f : pyfunc) (reg reg' : gmap string info) (i : info) (format : string)
    (args : list pyarg) (d d' : device) :
  declare shapes tys o c name f reg = Ok reg' ->
  reg' !! registered_name name f = Some i ->
  argtypes i = Found format ->
  _gpu_func i args d = (Ok tt, d') ->
  exists uploads count values arrays,
    calls d' = calls d ++ uploads
               ++ [SetBlockShape count; PreparedCall values]
               ++ downloads arrays
    /\ (length values = String.length format
        <-> (length (func_args f) <= length args)%nat).
Proof.
  intros Hdecl Hentry Hfmt.
  destruct (format_of_declared _ _ _ _ _ _ _ _ _ _ Hdecl Hentry Hfmt)
    as (Hfunc & Hlen & _).
  rewrite gpu_func_run, Hfunc.
  destruct (for_args i _ _ d) as [[st|e] d1] eqn:Hloop; [|discriminate].
  intros [= <-]. simpl.
  destruct (for_args_Ok _ _ _ _ _ _ Hloop)
    as (nargs & narrs & ups & Hka & _ & Hcalls & _ & Hpos & _).
  simpl in Hka. apply Forall2_length in Hpos.
  rewrite length_map, length_combine in Hpos.
  exists ups, (count st), (kernel_args st ++ [count st]), (arrays st).
  rewrite Hcalls, <- app_assoc. split; [reflexivity|].
  rewrite length_app, Hka, <- Hpos, Hlen. simpl. lia.
Qed.

Lemma kernel_arity_witness :
  exists uploads count values arrays,
    calls (snd (_gpu_func
                  (mk_info (mk_pyfunc "f" ["a"; "x"] (Ok tt)) (<["a" := [2]]> ∅)
                           false false
                           (<["x" := ("f", "float")]>
                              (<["a" := ("P", "IntArray")]> ∅))
                           false)
                  [NdArray (mk_ndarray [4] 4)] (mk_device 0 [])))
    = [] ++ uploads ++ [SetBlockShape count; PreparedCall values]
      ++ downloads arrays
    /\ (length values = String.length "Pfi"
        <-> (length (func_args (mk_pyfunc "f" ["a"; "x"] (Ok tt)))
             <= length [NdArray (mk_ndarray [4%Z] 4%Z)])%nat).
Proof.
  apply (kernel_arity
           [(Name "a", [2])] [(Name "a", IntArray); (Name "x", np_float64)]
           false false None (mk_pyfunc "f" ["a"; "x"] (Ok tt)) ∅
           (<["f" := mk_info (mk_pyfunc "f" ["a"; "x"] (Ok tt)) (<["a" := [2]]> ∅)
                             false false
                             (<["x" := ("f", "float")]>
                                (<["a" := ("P", "IntArray")]> ∅))
                             false]> ∅)
           (mk_info (mk_pyfunc "f" ["a"; "x"] (Ok tt)) (<["a" := [2]]> ∅)
                    false false
                    (<["x" := ("f", "float")]> (<["a" := ("P", "IntArray")]> ∅))
                    false)
           "Pfi" [NdArray (mk_ndarray [4] 4)] (mk_device 0 [])).
  - reflexivity.
  - reflexivity.
  - reflexivity.
  - reflexivity.
Defined.

Lemma upload_all_no_host (args : list pyarg) (d : device) :
  Forall (fun arg => forall a, arg <> NdArray a) args ->
  snd (upload_all args d) = d.
Proof.
  induction 1 as [|arg args Hno _ IH]; [reflexivity|].
  rewrite upload_all_cons.
  destruct arg as [a|g|v]; [exfalso; exact (Hno a eq_refl) | exact IH ..].
Qed.

Lemma host_arrays_none (args : list pyarg) :
  Forall (fun arg => forall a, arg <> NdArray a) args -> host_arrays args = [].
Proof.
  induction 1 as [|arg args Hno _ IH]; [reflexivity|].
  unfold host_arrays in *. simpl.
  destruct arg as [a|g|v]; [exfalso; exact (Hno a eq_refl) | exact IH ..].
Qed.

Lemma combine_snd_Forall {A B} (P : B -> Prop) (l : list A) (args : list B) :
  Forall P args -> Forall P (map snd (combine l args)).
Proof.
  intros Hall. revert l. induction Hall as [|x args Hx _ IH]; intros [|y l];
    simpl; constructor; auto.
Qed.

(** X26. A call handed no host array (device arrays built beforehand and
    numbers only) that goes through makes two driver calls and no more: it
    sets the block shape and launches the kernel; nothing is uploaded and
    nothing is copied back. *)
Theorem device_arrays_stay_on_device (i : info) (args : list pyarg)
    (d d' : device) :
  Forall (fun arg => forall a, arg <> NdArray a) args ->
  _gpu_func i args d = (Ok tt, d') ->
  exists count values,
    calls d' = calls d ++ [SetBlockShape count; PreparedCall values].
Proof.
  intros Hno. rewrite gpu_func_run.
  destruct (for_args i _ _ d) as [[st|e] d1] eqn:Hloop; [|discriminate].
  intros [= <-]. simpl.
  pose proof (combine_snd_Forall _ (func_args (func i)) _ Hno) as Hno'.
  pose proof (for_args_Ok_device _ _ _ _ _ _ Hloop) as Hdev.
  rewrite (upload_all_no_host _ _ Hno') in Hdev. subst d1.
  destruct (for_args_Ok _ _ _ _ _ _ Hloop)
    as (nargs & narrs & ups & _ & Har & _ & _ & _ & Hhost & _).
  rewrite (host_arrays_none _ Hno') in Hhost.
  destruct narrs; [|discriminate]. simpl in Har. rewrite Har. simpl.
  eauto.
Qed.

Lemma device_arrays_stay_on_device_witness :
  exists count values,
    calls (snd (_gpu_func two_blocks
                  [DeviceArray (GPUArray.mk (mk_ndarray [4] 4) 0 48);
                   DeviceArray (GPUArray.mk (mk_ndarray [4] 4) 64 112)]
                  (mk_device 136 [])))
    = [] ++ [SetBlockShape count; PreparedCall values].
Proof.
  apply (device_arrays_stay_on_device two_blocks
           [DeviceArray (GPUArray.mk (mk_ndarray [4] 4) 0 48);
            DeviceArray (GPUArray.mk (mk_ndarray [4] 4) 64 112)]
           (mk_device 136 [])).
  - repeat constructor; discriminate.
  - reflexivity.
Defined.

(** ** The type mapper over all classes *)

(** X27. [get_arg_type] never answers ("d", "double"): whatever class it is
    handed, the branch of lines 130-131 is not taken. *)
Theorem double_is_never_returned (arg : pyclass) (name : string) :
  get_arg_type arg <> Ok ("d", name).
Proof.
  destruct arg; discriminate.
Qed.

(** X28. A class [get_arg_type] accepts is answered with a code of one
    character, and a class it refuses is refused with the [NameError] of
    the unbound [tp], never with the [ValueError] line 132 means to
    raise. *)
Theorem mapper_outcomes (arg : pyclass) :
  (exists code name,
     get_arg_type arg = Ok (code, name) /\ String.length code = 1%nat)
  \/ get_arg_type arg = Raise (NameError "tp").
Proof.
  destruct (get_arg_type arg) as [[code name]|e] eqn:Hty.
  - left. exists code, name. split; [reflexivity|].
    exact (get_arg_type_code_length _ _ Hty).
  - right. rewrite (unsupported_raises_NameError _ _ Hty). reflexivity.
Qed.
